(** * Page-object layer of the Playwright scaffold: BasePage, LoginPage,
      HomePage and the authenticatedPage fixture.

    The browser-automation library is a black box.  It is modelled as a
    [runtime]: a handler that answers every primitive operation on a page
    handle with a value or a thrown error and a new world.  The page
    objects are embedded over a small state-and-exception monad whose state
    carries the world and an observation trace (log lines, primitive calls,
    delays), so that "what was called, in which order" can be stated. *)

From Stdlib Require Import ZArith String Ascii List Lia DecimalString.
From stdpp Require Import base gmap strings list.

Local Open Scope Z_scope.
Local Open Scope string_scope.

(** ** JavaScript values *)

Module Js.

Inductive jsval : Type :=
| JUndefined
| JNull
| JBool (b : bool)
| JNum (n : Z)
| JNaN
| JStr (s : string)
| JObj (ref : positive).

#[global] Instance jsval_eq_dec : EqDecision jsval.
Proof. solve_decision. Defined.

(** ToBoolean: [undefined], [null], [false], [0], [NaN] and [''] are falsy. *)
Definition truthy (v : jsval) : bool :=
  match v with
  | JUndefined | JNull | JNaN => false
  | JBool b => b
  | JNum n => negb (Z.eqb n 0)
  | JStr s => negb (String.eqb s "")
  | JObj _ => true
  end.

(** [a || b] *)
Definition or (a b : jsval) : jsval := if truthy a then a else b.

(** Plain objects used as option bags. *)
Abbreviation object := (gmap string jsval).

(** [o.k]: a missing property reads as [undefined]. *)
Definition get (o : object) (k : string) : jsval :=
  default JUndefined (o !! k).

(** [{ ...target, ...src }]: own properties of [src] overwrite [target]. *)
Definition spread (target src : object) : object := src ∪ target.

(** Error objects: a name and a message. *)
Record error : Type := mkError { err_name : string; err_message : string }.

#[global] Instance error_eq_dec : EqDecision error.
Proof. solve_decision. Defined.

(** [new Error(msg)] *)
Definition Error (msg : string) : error :=
  {| err_name := "Error"; err_message := msg |}.

Record regexp : Type := mkRegExp { re_source : string; re_flags : string }.

#[global] Instance regexp_eq_dec : EqDecision regexp.
Proof. solve_decision. Defined.

(** Template-literal rendering of the values the code interpolates. *)
Definition show_bool (b : bool) : string := if b then "true" else "false".
Definition show_num (n : Z) : string := NilZero.string_of_int (Z.to_int n).
Definition show_text (t : option string) : string :=
  match t with Some s => s | None => "null" end.

(** Strings hold text in UTF-8.  The code points that
    [String.prototype.trim] removes are the WhiteSpace of ECMAScript (TAB,
    VT, FF, ZWNBSP and the Unicode space separators) and its
    LineTerminator (LF, CR, LS, PS). *)
Definition white_space : list N :=
  [0x0009; 0x000B; 0x000C; 0xFEFF;
   0x0020; 0x00A0; 0x1680;
   0x2000; 0x2001; 0x2002; 0x2003; 0x2004; 0x2005; 0x2006; 0x2007; 0x2008;
   0x2009; 0x200A;
   0x202F; 0x205F; 0x3000]%N.

Definition line_terminator : list N := [0x000A; 0x000D; 0x2028; 0x2029]%N.

Definition is_space (cp : N) : bool :=
  existsb (N.eqb cp) (white_space ++ line_terminator).

(** A continuation byte of UTF-8. *)
Definition is_cont (n : N) : bool := ((0x80 <=? n) && (n <=? 0xBF))%N.

(** A white-space code point encoded on one, two or three bytes (none
    needs four). *)
Definition space1 (c1 : ascii) : bool :=
  let n1 := N_of_ascii c1 in
  ((n1 <? 0x80) && is_space n1)%N.

Definition space2 (c1 c2 : ascii) : bool :=
  let n1 := N_of_ascii c1 in
  let n2 := N_of_ascii c2 in
  ((0xC2 <=? n1) && (n1 <=? 0xDF) && is_cont n2
   && is_space ((n1 - 0xC0) * 64 + (n2 - 0x80)))%N.

Definition space3 (c1 c2 c3 : ascii) : bool :=
  let n1 := N_of_ascii c1 in
  let n2 := N_of_ascii c2 in
  let n3 := N_of_ascii c3 in
  let cp := ((n1 - 0xE0) * 4096 + (n2 - 0x80) * 64 + (n3 - 0x80))%N in
  ((0xE0 <=? n1) && (n1 <=? 0xEF) && is_cont n2 && is_cont n3
   && (0x800 <=? cp) && is_space cp)%N.

Fixpoint trim_start (s : string) : string :=
  match s with
  | String c1 r1 =>
      if space1 c1 then trim_start r1
      else
        match r1 with
        | String c2 r2 =>
            if space2 c1 c2 then trim_start r2
            else
              match r2 with
              | String c3 r3 =>
                  if space3 c1 c2 c3 then trim_start r3 else s
              | EmptyString => s
              end
        | EmptyString => s
        end
  | EmptyString => EmptyString
  end.

(** Nothing but white space from here to the end. *)
Definition all_space (s : string) : bool :=
  match trim_start s with
  | EmptyString => true
  | String _ _ => false
  end.

(** Cut at the first position from which only white space follows. *)
Fixpoint trim_end (s : string) : string :=
  match s with
  | String c s' => if all_space s then EmptyString else String c (trim_end s')
  | EmptyString => EmptyString
  end.

(** The UTF-8 encoding of a code point and of a list of code points. *)
Definition utf8 (cp : N) : string :=
  let byte n := String (ascii_of_N n) EmptyString in
  if (cp <? 0x80)%N then byte cp
  else if (cp <? 0x800)%N then
    byte (0xC0 + cp / 64)%N +:+ byte (0x80 + cp mod 64)%N
  else if (cp <? 0x10000)%N then
    byte (0xE0 + cp / 4096)%N +:+ byte (0x80 + (cp / 64) mod 64)%N
      +:+ byte (0x80 + cp mod 64)%N
  else
    byte (0xF0 + cp / 262144)%N +:+ byte (0x80 + (cp / 4096) mod 64)%N
      +:+ byte (0x80 + (cp / 64) mod 64)%N +:+ byte (0x80 + cp mod 64)%N.

Fixpoint utf8_string (cps : list N) : string :=
  match cps with
  | [] => EmptyString
  | cp :: rest => utf8 cp +:+ utf8_string rest
  end.

Definition trim (s : string) : string := trim_end (trim_start s).

End Js.
Export Js.

(** ** Locators and primitive operations of the automation library *)

Inductive role_arg : Type :=
| RoleOnly                       (* getByRole(role) *)
| RoleName (name : regexp)       (* getByRole(role, { name: re }) *)
| RoleRaw (options : jsval).     (* getByRole(role, options) *)

Inductive locator : Type :=
| Locator (selector : string)
| GetByRole (role : string) (arg : role_arg)
| GetByText (re : regexp)
| GetByTestId (id : string)
| GetByPlaceholder (re : regexp)
| GetByLabel (re : regexp)
| FilterHas (l has : locator)
| First (l : locator)
| Nth (l : locator) (i : Z).

#[global] Instance role_arg_eq_dec : EqDecision role_arg.
Proof. solve_decision. Defined.

#[global] Instance locator_eq_dec : EqDecision locator.
Proof. solve_decision. Defined.

(** The operations the page objects invoke, indexed by what they resolve
    to.  Each may instead reject with an error. *)
Inductive op : Type -> Type :=
| PageGoto (url : string) (opts : object) : op jsval
| Click (l : locator) (opts : object) : op unit
| Fill (l : locator) (value : string) (opts : object) : op unit
| IsVisible (l : locator) (opts : object) : op bool
| WaitFor (l : locator) (opts : object) : op unit
| Count (l : locator) : op Z
| TextContent (l : locator) : op (option string)
| Press (l : locator) (key : string) : op unit
| Clear (l : locator) : op unit.

Inductive result (A : Type) : Type :=
| Ok (a : A)
| Throw (e : error).
Arguments Ok {A} a.
Arguments Throw {A} e.

Inductive level : Type := INFO | PASS | WARN | ERROR | DEBUG | SECTION.

Inductive event : Type :=
| ELog (lvl : level) (msg : string) (cause : option error)
| ECall (page : jsval) {X : Type} (o : op X)
| EDelay (ms : Z).

(** What lies outside the repository: the process environment, the
    automation library answering operations on a page handle, the passing
    of time, and the regular-expression parser of the engine. *)
Record runtime (W : Type) : Type := {
  rt_env : gmap string string;
  rt_exec : ∀ X, jsval → op X → W → result X * W;
  rt_elapse : Z → W → W;
  rt_regexp_error : string → option error;
}.
Arguments rt_env {W} r.
Arguments rt_exec {W} r {X} page o w.
Arguments rt_elapse {W} r ms w.
Arguments rt_regexp_error {W} r src.

Record st (W : Type) : Type := mkSt { world : W; trace : list event }.
Arguments mkSt {W} world trace.
Arguments world {W} s.
Arguments trace {W} s.

(** ** The monad of asynchronous methods: state plus exceptions.
    A thrown error keeps the state reached so far. *)

Definition M (W A : Type) : Type := st W → result A * st W.

Definition ret {W A} (a : A) : M W A := fun s => (Ok a, s).

Definition throw {W A} (e : error) : M W A := fun s => (Throw e, s).

Definition bind {W A B} (m : M W A) (f : A → M W B) : M W B :=
  fun s =>
    match m s with
    | (Ok a, s') => f a s'
    | (Throw e, s') => (Throw e, s')
    end.

(** [try { m } catch (error) { h error }] *)
Definition try_catch {W A} (m : M W A) (h : error → M W A) : M W A :=
  fun s =>
    match m s with
    | (Ok a, s') => (Ok a, s')
    | (Throw e, s') => h e s'
    end.

(** [promise.catch(() => d)] *)
Definition catch_value {W A} (m : M W A) (d : A) : M W A :=
  try_catch m (fun _ => ret d).

Definition emit {W} (ev : event) : M W unit :=
  fun s => (Ok tt, mkSt (world s) (trace s ++ [ev])).

Declare Scope js_scope.
Delimit Scope js_scope with js.
Notation "'let*' x ':=' m 'in' k" := (bind m (fun x => k))
  (at level 10, x name, m at level 100, k at level 200) : js_scope.
Notation "m ;;; k" := (bind m (fun _ => k))
  (at level 100, k at level 200, right associativity) : js_scope.
Notation "'TRY' m 'CATCH' e '=>' h" := (try_catch m (fun e => h))
  (at level 10, m at level 200, e name, h at level 200) : js_scope.
Local Open Scope js_scope.

(** ** Logger (src/utils/logger.js): an observability sink *)

Module logger.
Definition info {W} (msg : string) : M W unit := emit (ELog INFO msg None).
Definition pass {W} (msg : string) : M W unit := emit (ELog PASS msg None).
Definition warn {W} (msg : string) : M W unit := emit (ELog WARN msg None).
Definition debug {W} (msg : string) : M W unit := emit (ELog DEBUG msg None).
Definition error {W} (msg : string) (cause : Js.error) : M W unit :=
  emit (ELog ERROR msg (Some cause)).
Definition section {W} (name : string) : M W unit :=
  emit (ELog SECTION name None).
End logger.

(** ** Configuration (src/utils/config.js) *)

Module config.
(** [process.env.K || d]: an unset or empty variable gives the default. *)
Definition env_or {W} (rt : runtime W) (k d : string) : string :=
  match rt_env rt !! k with
  | Some v => if String.eqb v "" then d else v
  | None => d
  end.

Definition BASE_URL {W} (rt : runtime W) : string :=
  env_or rt "BASE_URL" "https://sauce-demo.myshopify.com/".

Module CREDENTIALS.
Definition email {W} (rt : runtime W) : string :=
  env_or rt "TEST_EMAIL" "test@example.com".
Definition password {W} (rt : runtime W) : string :=
  env_or rt "TEST_PASSWORD" "testPassword123".
Definition invalidEmail : string := "invalid@test.com".
Definition invalidPassword : string := "wrongPassword".
End CREDENTIALS.

Module TIMEOUTS.
Definition SHORT : Z := 2000.
Definition MEDIUM : Z := 5000.
Definition LONG : Z := 10000.
Definition NAVIGATION : Z := 8000.
Definition ELEMENT : Z := 3000.
End TIMEOUTS.

Module DELAYS.
Definition SHORT_DELAY : Z := 500.
Definition MEDIUM_DELAY : Z := 1000.
Definition LONG_DELAY : Z := 2000.
End DELAYS.
End config.

(** ** Primitive steps *)

Section Primitives.
Context {W : Type} (rt : runtime W).

(** [await page.<op>(...)] / [await locator.<op>(...)] *)
Definition perform {X} (page : jsval) (o : op X) : M W X :=
  fun s =>
    let (r, w') := rt_exec rt page o (world s) in
    (r, mkSt w' (trace s ++ [ECall page o])).

(** [new RegExp(source, flags)]: a malformed source throws. *)
Definition RegExp_new (source flags : string) : M W regexp :=
  match rt_regexp_error rt source with
  | Some e => throw e
  | None => ret (mkRegExp source flags)
  end.

(** [new Promise(resolve => setTimeout(resolve, ms))]: never rejects. *)
Definition sleep (ms : Z) : M W unit :=
  fun s => (Ok tt, mkSt (rt_elapse rt ms (world s)) (trace s ++ [EDelay ms])).
End Primitives.

(** A page object holds the page handle; the logger is the global one. *)
Record page_object : Type := mkPageObject { page : jsval }.

(** The double-quote character, for selectors that embed one. *)
Definition dq : string := String "034"%char EmptyString.

(** [{ timeout: t }] *)
Definition timeout_opt (t : Z) : object := {[ "timeout" := JNum t ]}.

(** ** BasePage (src/pages/BasePage.js) *)

Module BasePage.
Section BasePage.
Context {W : Type} (rt : runtime W).

Definition constructor (page : jsval) : M W page_object :=
  if negb (truthy page)
  then throw (Error "Page object is required to initialize BasePage")
  else ret (mkPageObject page).

Definition goto (this : page_object) (url : string) (options : object)
  : M W jsval :=
  TRY
    let timeout :=
      Js.or (Js.get options "timeout") (JNum config.TIMEOUTS.NAVIGATION) in
    logger.info ("Navigating to: " +:+ url) ;;;
    let* response :=
      perform rt (page this)
        (PageGoto url
           (<["timeout" := timeout]> {[ "waitUntil" := JStr "networkidle" ]})) in
    logger.pass ("Successfully navigated to: " +:+ url) ;;;
    ret response
  CATCH error =>
    logger.error ("Failed to navigate to " +:+ url) error ;;;
    throw error.

Definition clickByRole (this : page_object) (role : string)
    (nameOrOptions : jsval) (options : object) : M W unit :=
  TRY
    let timeout :=
      Js.or (Js.get options "timeout") (JNum config.TIMEOUTS.ELEMENT) in
    let* locator :=
      match nameOrOptions with
      | JStr name =>
          let* re := RegExp_new rt name "i" in
          ret (GetByRole role (RoleName re))
      | _ => ret (GetByRole role (RoleRaw nameOrOptions))
      end in
    perform rt (page this)
      (Click locator (Js.spread {[ "timeout" := timeout ]} options)) ;;;
    logger.pass ("Clicked element with role: " +:+ role)
  CATCH error =>
    logger.error ("Failed to click element with role: " +:+ role) error ;;;
    throw error.

Definition clickByText (this : page_object) (text : string)
    (options : object) : M W unit :=
  TRY
    let timeout :=
      Js.or (Js.get options "timeout") (JNum config.TIMEOUTS.ELEMENT) in
    let* re := RegExp_new rt text "i" in
    let locator := GetByText re in
    perform rt (page this)
      (Click (First locator) (Js.spread {[ "timeout" := timeout ]} options)) ;;;
    logger.pass ("Clicked element with text: " +:+ text)
  CATCH error =>
    logger.error ("Failed to click element with text: " +:+ text) error ;;;
    throw error.

Definition clickByTestId (this : page_object) (testId : string)
    (options : object) : M W unit :=
  TRY
    let timeout :=
      Js.or (Js.get options "timeout") (JNum config.TIMEOUTS.ELEMENT) in
    let locator := GetByTestId testId in
    perform rt (page this)
      (Click locator (Js.spread {[ "timeout" := timeout ]} options)) ;;;
    logger.pass ("Clicked element with testId: " +:+ testId)
  CATCH error =>
    logger.error ("Failed to click element with testId: " +:+ testId) error ;;;
    throw error.

Definition fillInput (this : page_object) (name value : string)
    (options : object) : M W unit :=
  TRY
    let* re := RegExp_new rt name "i" in
    let locator := GetByRole "textbox" (RoleName re) in
    perform rt (page this) (Fill locator value options) ;;;
    logger.pass
      ("Filled input " +:+ dq +:+ name +:+ dq +:+ " with value: " +:+ value)
  CATCH error =>
    logger.error ("Failed to fill input " +:+ dq +:+ name +:+ dq) error ;;;
    throw error.

(** The locator of the first attempt of [fillPassword]. *)
Definition passwordByLabel (name : string) : locator :=
  First
    (FilterHas
       (Locator ("input[type=" +:+ dq +:+ "password" +:+ dq +:+ "]"))
       (Locator ("label:has-text(" +:+ dq +:+ name +:+ dq +:+ ")"))).

Definition fillPassword (this : page_object) (name value : string)
    (options : object) : M W unit :=
  TRY
    let locator := passwordByLabel name in
    perform rt (page this) (Fill locator value options) ;;;
    logger.pass "Filled password field with masked value"
  CATCH error =>
    TRY
      let* re := RegExp_new rt name "i" in
      perform rt (page this) (Fill (GetByPlaceholder re) value options) ;;;
      logger.pass "Filled password field with placeholder"
    CATCH fallbackError =>
      logger.error
        ("Failed to fill password field " +:+ dq +:+ name +:+ dq)
        fallbackError ;;;
      throw fallbackError.

(** [content || ''] on a string-or-null text content. *)
Definition text_or_empty (content : option string) : string :=
  match content with Some s => s | None => "" end.

Definition getTextByText (this : page_object) (text : string) : M W string :=
  TRY
    let* re := RegExp_new rt text "i" in
    let* content := perform rt (page this) (TextContent (First (GetByText re))) in
    logger.debug ("Retrieved text: " +:+ show_text content) ;;;
    ret (text_or_empty content)
  CATCH error =>
    logger.error ("Failed to get text for: " +:+ text) error ;;;
    throw error.

Definition isVisible (this : page_object) (locatorType locatorValue : string)
  : M W bool :=
  TRY
    let* locator :=
      if String.eqb locatorType "role" then
        ret (GetByRole locatorValue RoleOnly)
      else if String.eqb locatorType "text" then
        let* re := RegExp_new rt locatorValue "i" in
        ret (GetByText re)
      else if String.eqb locatorType "testId" then
        ret (GetByTestId locatorValue)
      else
        throw (Error ("Unknown locator type: " +:+ locatorType)) in
    let* isVisible :=
      perform rt (page this)
        (IsVisible locator (timeout_opt config.TIMEOUTS.SHORT)) in
    logger.debug
      ("Element visibility check [" +:+ locatorType +:+ ": " +:+ locatorValue
         +:+ "]: " +:+ show_bool isVisible) ;;;
    ret isVisible
  CATCH error =>
    logger.debug ("Element not visible: " +:+ locatorValue) ;;;
    ret false.

Definition waitForVisibility (this : page_object)
    (locatorType locatorValue : string) (timeout_arg : option Z) : M W unit :=
  let timeout := default config.TIMEOUTS.ELEMENT timeout_arg in
  TRY
    let* locator :=
      if String.eqb locatorType "role" then
        ret (GetByRole locatorValue RoleOnly)
      else if String.eqb locatorType "text" then
        let* re := RegExp_new rt locatorValue "i" in
        ret (GetByText re)
      else if String.eqb locatorType "testId" then
        ret (GetByTestId locatorValue)
      else
        throw (Error ("Unknown locator type: " +:+ locatorType)) in
    perform rt (page this)
      (WaitFor locator
         (<["timeout" := JNum timeout]> {[ "state" := JStr "visible" ]})) ;;;
    logger.pass ("Element became visible: " +:+ locatorValue)
  CATCH error =>
    logger.error ("Element did not become visible: " +:+ locatorValue) error ;;;
    throw error.

Definition delay (this : page_object) (ms : Z) : M W unit := sleep rt ms.

End BasePage.
End BasePage.

(** ** LoginPage (src/pages/LoginPage.js) *)

Module LoginPage.
Section LoginPage.
Context {W : Type} (rt : runtime W).

Definition constructor (page : jsval) : M W page_object :=
  let* this := BasePage.constructor page in
  logger.info "LoginPage initialized" ;;;
  ret this.

Definition navigateToLogin (this : page_object) : M W unit :=
  TRY
    BasePage.goto rt this (config.BASE_URL rt) ∅ ;;;
    logger.pass "Navigated to login page"
  CATCH error =>
    logger.error "Failed to navigate to login page" error ;;;
    throw error.

Definition getEmailField : locator :=
  GetByPlaceholder (mkRegExp "email|e-?mail" "i").

Definition getPasswordField : locator :=
  GetByPlaceholder (mkRegExp "password" "i").

Definition getLoginButton : locator :=
  GetByRole "button" (RoleName (mkRegExp "sign in|login|submit" "i")).

Definition enterEmail (this : page_object) (email : string) : M W unit :=
  TRY
    let emailField := getEmailField in
    perform rt (page this)
      (Fill emailField email (timeout_opt config.TIMEOUTS.ELEMENT)) ;;;
    logger.pass ("Entered email: " +:+ email)
  CATCH error =>
    logger.error "Failed to enter email" error ;;;
    throw error.

Definition enterPassword (this : page_object) (password : string)
  : M W unit :=
  TRY
    let passwordField := getPasswordField in
    perform rt (page this)
      (Fill passwordField password (timeout_opt config.TIMEOUTS.ELEMENT)) ;;;
    logger.pass "Entered password"
  CATCH error =>
    logger.error "Failed to enter password" error ;;;
    throw error.

Definition clickLoginButton (this : page_object) : M W unit :=
  TRY
    let loginButton := getLoginButton in
    perform rt (page this)
      (Click loginButton (timeout_opt config.TIMEOUTS.ELEMENT)) ;;;
    logger.pass "Clicked login button" ;;;
    BasePage.delay rt this config.DELAYS.MEDIUM_DELAY
  CATCH error =>
    logger.error "Failed to click login button" error ;;;
    throw error.

(** The arguments default to the configured credentials. *)
Definition login (this : page_object) (email_arg password_arg : option string)
  : M W unit :=
  let email := default (config.CREDENTIALS.email rt) email_arg in
  let password := default (config.CREDENTIALS.password rt) password_arg in
  TRY
    logger.info "Starting login process" ;;;
    enterEmail this email ;;;
    enterPassword this password ;;;
    clickLoginButton this ;;;
    logger.pass "Login completed successfully"
  CATCH error =>
    logger.error "Login process failed" error ;;;
    throw error.

Definition errorElement : locator :=
  First
    (Locator
       ("[role=" +:+ dq +:+ "alert" +:+ dq
          +:+ "], .error, .error-message, [class*=" +:+ dq +:+ "error"
          +:+ dq +:+ "]")).

Definition getErrorMessage (this : page_object) : M W (option string) :=
  TRY
    let* isVisible :=
      catch_value
        (perform rt (page this)
           (IsVisible errorElement (timeout_opt config.TIMEOUTS.SHORT)))
        false in
    if isVisible : bool then
      let* errorText := perform rt (page this) (TextContent errorElement) in
      logger.warn ("Error message found: " +:+ show_text errorText) ;;;
      ret errorText
    else
      ret None
  CATCH error =>
    logger.debug "No error message found" ;;;
    ret None.

(** [errorMessage !== null && errorMessage.trim().length > 0] *)
Definition nonblank (errorMessage : option string) : bool :=
  match errorMessage with
  | None => false
  | Some s => (0 <? String.length (trim s))%nat
  end.

Definition isErrorDisplayed (this : page_object) : M W bool :=
  TRY
    let* errorMessage := getErrorMessage this in
    ret (nonblank errorMessage)
  CATCH error =>
    logger.debug "Error checking for error message" ;;;
    ret false.

Definition isLoginFormDisplayed (this : page_object) : M W bool :=
  TRY
    let emailField := getEmailField in
    let passwordField := getPasswordField in
    let loginButton := getLoginButton in
    let* emailVisible :=
      catch_value
        (perform rt (page this)
           (IsVisible emailField (timeout_opt config.TIMEOUTS.SHORT)))
        false in
    let* passwordVisible :=
      catch_value
        (perform rt (page this)
           (IsVisible passwordField (timeout_opt config.TIMEOUTS.SHORT)))
        false in
    let* buttonVisible :=
      catch_value
        (perform rt (page this)
           (IsVisible loginButton (timeout_opt config.TIMEOUTS.SHORT)))
        false in
    let isDisplayed := emailVisible && passwordVisible && buttonVisible in
    (if isDisplayed
     then logger.pass "Login form is displayed"
     else logger.warn "Login form is NOT fully displayed") ;;;
    ret isDisplayed
  CATCH error =>
    logger.error "Failed to validate login form" error ;;;
    ret false.

Definition verifyLoginSuccess (this : page_object) : M W bool :=
  TRY
    let emailField := getEmailField in
    let* isLoginPageStillVisible :=
      catch_value
        (perform rt (page this)
           (IsVisible emailField (timeout_opt config.TIMEOUTS.SHORT)))
        false in
    if negb isLoginPageStillVisible then
      logger.pass
        "Successfully verified login - login form is no longer visible" ;;;
      ret true
    else
      logger.warn "Login verification failed - still on login page" ;;;
      ret false
  CATCH error =>
    logger.error "Failed to verify login success" error ;;;
    ret false.

Definition clearEmail (this : page_object) : M W unit :=
  TRY
    let emailField := getEmailField in
    perform rt (page this) (Clear emailField) ;;;
    logger.debug "Email field cleared"
  CATCH error =>
    logger.error "Failed to clear email field" error ;;;
    throw error.

Definition clearPassword (this : page_object) : M W unit :=
  TRY
    let passwordField := getPasswordField in
    perform rt (page this) (Clear passwordField) ;;;
    logger.debug "Password field cleared"
  CATCH error =>
    logger.error "Failed to clear password field" error ;;;
    throw error.

(** [if (errorMessage)]: a string is truthy when it is not empty. *)
Definition message_truthy (errorMessage : option string) : bool :=
  match errorMessage with
  | Some text => truthy (JStr text)
  | None => truthy JNull
  end.

(** The arguments default to the configured invalid credentials. *)
Definition attemptInvalidLogin (this : page_object)
    (email_arg password_arg : option string) : M W (option string) :=
  let email := default config.CREDENTIALS.invalidEmail email_arg in
  let password := default config.CREDENTIALS.invalidPassword password_arg in
  TRY
    logger.info "Attempting login with invalid credentials" ;;;
    login this (Some email) (Some password) ;;;
    BasePage.delay rt this config.DELAYS.MEDIUM_DELAY ;;;
    let* errorMessage := getErrorMessage this in
    (if message_truthy errorMessage
     then logger.pass
            ("Invalid login error captured: " +:+ show_text errorMessage)
     else logger.warn "No error message displayed for invalid credentials") ;;;
    ret errorMessage
  CATCH error =>
    logger.error "Failed during invalid login attempt" error ;;;
    throw error.

End LoginPage.
End LoginPage.

(** ** HomePage (src/pages/HomePage.js) *)

Module HomePage.
Section HomePage.
Context {W : Type} (rt : runtime W).

Definition constructor (page : jsval) : M W page_object :=
  let* this := BasePage.constructor page in
  logger.info "HomePage initialized" ;;;
  ret this.

Definition class_sel (name : string) : string :=
  "[class*=" +:+ dq +:+ name +:+ dq +:+ "]".

Definition getProductGrid : locator :=
  First
    (Locator
       (class_sel "product" +:+ ", " +:+ class_sel "grid" +:+ ", [role="
          +:+ dq +:+ "main" +:+ dq +:+ "]")).

Definition getAllProducts : locator :=
  Locator
    (class_sel "product-item" +:+ ", " +:+ class_sel "product"
       +:+ ", li[role=" +:+ dq +:+ "option" +:+ dq +:+ "], article").

Definition getFeaturedSection : locator :=
  First
    (Locator
       (class_sel "featured" +:+ ", " +:+ class_sel "banner" +:+ ", "
          +:+ class_sel "hero")).

Definition addToCartButton : locator :=
  GetByRole "button" (RoleName (mkRegExp "add to cart|add to bag|add" "i")).

Definition noResultsLocator : locator :=
  GetByText (mkRegExp "no results|no products|nothing found" "i").

Definition getProductCount (this : page_object) : M W Z :=
  TRY
    let products := getAllProducts in
    let* count := perform rt (page this) (Count products) in
    logger.debug ("Product count: " +:+ show_num count) ;;;
    ret count
  CATCH error =>
    logger.error "Failed to get product count" error ;;;
    ret 0.

Definition clickProduct (this : page_object) (productName : string)
  : M W unit :=
  TRY
    logger.info ("Clicking product: " +:+ productName) ;;;
    let* re := RegExp_new rt productName "i" in
    let productLocator := First (GetByText re) in
    perform rt (page this)
      (Click productLocator (timeout_opt config.TIMEOUTS.ELEMENT)) ;;;
    BasePage.delay rt this config.DELAYS.MEDIUM_DELAY ;;;
    logger.pass ("Clicked product: " +:+ productName)
  CATCH error =>
    logger.error ("Failed to click product: " +:+ productName) error ;;;
    throw error.

Definition addProductToCart (this : page_object) (productName : string)
  : M W unit :=
  TRY
    logger.info ("Adding product to cart: " +:+ productName) ;;;
    clickProduct this productName ;;;
    let* buttonExists :=
      catch_value
        (perform rt (page this)
           (IsVisible addToCartButton (timeout_opt config.TIMEOUTS.ELEMENT)))
        false in
    if buttonExists : bool then
      perform rt (page this)
        (Click addToCartButton (timeout_opt config.TIMEOUTS.ELEMENT)) ;;;
      BasePage.delay rt this config.DELAYS.MEDIUM_DELAY ;;;
      logger.pass ("Added product to cart: " +:+ productName)
    else
      logger.warn ("Add to cart button not found for: " +:+ productName)
  CATCH error =>
    logger.error ("Failed to add product to cart: " +:+ productName) error ;;;
    throw error.

Definition isProductGridDisplayed (this : page_object) : M W bool :=
  TRY
    let grid := getProductGrid in
    let* isVisible :=
      catch_value
        (perform rt (page this)
           (IsVisible grid (timeout_opt config.TIMEOUTS.SHORT)))
        false in
    (if isVisible : bool
     then logger.pass "Product grid is displayed"
     else logger.warn "Product grid is NOT displayed") ;;;
    ret isVisible
  CATCH error =>
    logger.error "Failed to verify product grid" error ;;;
    ret false.

Definition isNoResultsDisplayed (this : page_object) : M W bool :=
  TRY
    let* isVisible :=
      catch_value
        (perform rt (page this)
           (IsVisible noResultsLocator (timeout_opt config.TIMEOUTS.SHORT)))
        false in
    (if isVisible : bool
     then logger.pass "No results message is displayed"
     else ret tt) ;;;
    ret isVisible
  CATCH error =>
    logger.debug "No results message not found" ;;;
    ret false.

Definition isFeaturedSectionDisplayed (this : page_object) : M W bool :=
  TRY
    let section := getFeaturedSection in
    let* isVisible :=
      catch_value
        (perform rt (page this)
           (IsVisible section (timeout_opt config.TIMEOUTS.SHORT)))
        false in
    (if isVisible : bool
     then logger.pass "Featured section is displayed"
     else ret tt) ;;;
    ret isVisible
  CATCH error =>
    logger.debug "Featured section not found" ;;;
    ret false.

Definition navigateToHome (this : page_object) : M W unit :=
  TRY
    BasePage.goto rt this (config.BASE_URL rt) ∅ ;;;
    logger.pass "Navigated to home page"
  CATCH error =>
    logger.error "Failed to navigate to home page" error ;;;
    throw error.

Definition getSearchInput : locator :=
  GetByPlaceholder (mkRegExp "search" "i").

Definition getSearchButton : locator :=
  GetByRole "button" (RoleName (mkRegExp "search|go|find" "i")).

Definition getCartButton : locator :=
  GetByRole "button" (RoleName (mkRegExp "cart|shopping bag|basket" "i")).

Definition getFilterButton : locator :=
  GetByRole "button" (RoleName (mkRegExp "filter|sort|refine" "i")).

Definition clearButton : locator :=
  GetByRole "button" (RoleName (mkRegExp "clear|reset|show all" "i")).

Definition cartBadge : locator :=
  First
    (Locator
       (class_sel "cart-count" +:+ ", " +:+ class_sel "badge"
          +:+ ", span:has-text(/\d+/)")).

Definition searchProduct (this : page_object) (productName : string)
  : M W unit :=
  TRY
    logger.info ("Searching for product: " +:+ productName) ;;;
    let searchInput := getSearchInput in
    perform rt (page this)
      (Fill searchInput productName (timeout_opt config.TIMEOUTS.ELEMENT)) ;;;
    let searchButton := getSearchButton in
    let* buttonExists :=
      catch_value
        (perform rt (page this)
           (IsVisible searchButton (timeout_opt config.TIMEOUTS.SHORT)))
        false in
    (if buttonExists : bool
     then perform rt (page this)
            (Click searchButton (timeout_opt config.TIMEOUTS.ELEMENT))
     else perform rt (page this) (Press searchInput "Enter")) ;;;
    BasePage.delay rt this config.DELAYS.MEDIUM_DELAY ;;;
    logger.pass ("Searched for product: " +:+ productName)
  CATCH error =>
    logger.error ("Failed to search for product: " +:+ productName) error ;;;
    throw error.

Definition clickProductByIndex (this : page_object) (index : Z) : M W unit :=
  TRY
    logger.info ("Clicking product at index: " +:+ show_num index) ;;;
    let products := getAllProducts in
    perform rt (page this)
      (Click (Nth products index) (timeout_opt config.TIMEOUTS.ELEMENT)) ;;;
    BasePage.delay rt this config.DELAYS.MEDIUM_DELAY ;;;
    logger.pass ("Clicked product at index: " +:+ show_num index)
  CATCH error =>
    logger.error
      ("Failed to click product at index: " +:+ show_num index) error ;;;
    throw error.

Definition openCart (this : page_object) : M W unit :=
  TRY
    logger.info "Opening shopping cart" ;;;
    let cartButton := getCartButton in
    perform rt (page this)
      (Click cartButton (timeout_opt config.TIMEOUTS.ELEMENT)) ;;;
    BasePage.delay rt this config.DELAYS.MEDIUM_DELAY ;;;
    logger.pass "Shopping cart opened"
  CATCH error =>
    logger.error "Failed to open shopping cart" error ;;;
    throw error.

(** [/\D/g] removed: the decimal digits of a text, in order. *)
Definition is_digit (c : ascii) : bool :=
  let n := N_of_ascii c in ((48 <=? n) && (n <=? 57))%N.

Fixpoint digits_of (s : string) : string :=
  match s with
  | String c s' => if is_digit c then String c (digits_of s') else digits_of s'
  | EmptyString => EmptyString
  end.

(** [count?.replace(/\D/g, '') || '0'] *)
Definition digits_or_zero (count : option string) : string :=
  match count with
  | Some text => if String.eqb (digits_of text) "" then "0" else digits_of text
  | None => "0"
  end.

(** [parseInt] is the engine's: it reads a string of decimal digits as a
    number, rounding where the number type cannot hold the integer. *)
Definition getCartItemCount (parseInt : string → Z) (this : page_object)
  : M W Z :=
  TRY
    let* isVisible :=
      catch_value
        (perform rt (page this)
           (IsVisible cartBadge (timeout_opt config.TIMEOUTS.SHORT)))
        false in
    if isVisible : bool then
      let* count := perform rt (page this) (TextContent cartBadge) in
      let numCount := parseInt (digits_or_zero count) in
      logger.debug ("Cart item count: " +:+ show_num numCount) ;;;
      ret numCount
    else
      ret 0
  CATCH error =>
    logger.debug "Failed to get cart item count" ;;;
    ret 0.

Definition sortProducts (this : page_object) (sortOption : string)
  : M W unit :=
  TRY
    logger.info ("Sorting products by: " +:+ sortOption) ;;;
    let sortButton := getFilterButton in
    let* sortExists :=
      catch_value
        (perform rt (page this)
           (IsVisible sortButton (timeout_opt config.TIMEOUTS.ELEMENT)))
        false in
    if sortExists : bool then
      perform rt (page this)
        (Click sortButton (timeout_opt config.TIMEOUTS.ELEMENT)) ;;;
      BasePage.delay rt this config.DELAYS.SHORT_DELAY ;;;
      let* re := RegExp_new rt sortOption "i" in
      let sortOptionLocator := GetByRole "option" (RoleName re) in
      let* optionExists :=
        catch_value
          (perform rt (page this)
             (IsVisible sortOptionLocator (timeout_opt config.TIMEOUTS.SHORT)))
          false in
      if optionExists : bool then
        perform rt (page this)
          (Click sortOptionLocator (timeout_opt config.TIMEOUTS.ELEMENT)) ;;;
        BasePage.delay rt this config.DELAYS.MEDIUM_DELAY ;;;
        logger.pass ("Sorted products by: " +:+ sortOption)
      else
        logger.warn ("Sort option not found: " +:+ sortOption)
    else
      logger.warn "Sort button not found"
  CATCH error =>
    logger.error ("Failed to sort products by: " +:+ sortOption) error ;;;
    throw error.

Definition applyFilter (this : page_object) (filterName filterValue : string)
  : M W unit :=
  TRY
    logger.info
      ("Applying filter: " +:+ filterName +:+ " = " +:+ filterValue) ;;;
    let* re := RegExp_new rt filterValue "i" in
    let filterLocator := GetByLabel re in
    let* filterExists :=
      catch_value
        (perform rt (page this)
           (IsVisible filterLocator (timeout_opt config.TIMEOUTS.ELEMENT)))
        false in
    if filterExists : bool then
      perform rt (page this)
        (Click filterLocator (timeout_opt config.TIMEOUTS.ELEMENT)) ;;;
      BasePage.delay rt this config.DELAYS.MEDIUM_DELAY ;;;
      logger.pass
        ("Applied filter: " +:+ filterName +:+ " = " +:+ filterValue)
    else
      logger.warn ("Filter not found: " +:+ filterValue)
  CATCH error =>
    logger.error ("Failed to apply filter: " +:+ filterName) error ;;;
    throw error.

Definition clearAllFilters (this : page_object) : M W unit :=
  TRY
    logger.info "Clearing all filters" ;;;
    let* buttonExists :=
      catch_value
        (perform rt (page this)
           (IsVisible clearButton (timeout_opt config.TIMEOUTS.ELEMENT)))
        false in
    if buttonExists : bool then
      perform rt (page this)
        (Click clearButton (timeout_opt config.TIMEOUTS.ELEMENT)) ;;;
      BasePage.delay rt this config.DELAYS.MEDIUM_DELAY ;;;
      logger.pass "All filters cleared"
    else
      logger.warn "Clear filters button not found"
  CATCH error =>
    logger.error "Failed to clear filters" error ;;;
    throw error.

End HomePage.
End HomePage.

(** ** Fixtures (src/fixtures): the authenticatedPage fixture *)

Module fixtures.

(** What the fixture hands to the test body. *)
Record pageObjects : Type := mkPageObjects {
  po_page : jsval;
  po_homePage : page_object;
  po_loginPage : page_object;
}.

Section fixtures.
Context {W : Type} (rt : runtime W).

(** [use] runs the test body with the yielded value. *)
Definition authenticatedPage (page : jsval) (use : pageObjects → M W unit)
  : M W unit :=
  logger.section "SETTING UP AUTHENTICATED PAGE" ;;;
  TRY
    let* loginPage := LoginPage.constructor page in
    let* homePage := HomePage.constructor page in
    LoginPage.navigateToLogin rt loginPage ;;;
    let* isLoginFormVisible := LoginPage.isLoginFormDisplayed rt loginPage in
    (if isLoginFormVisible : bool then
       logger.info "Login form visible - performing login" ;;;
       LoginPage.login rt loginPage
         (Some (config.CREDENTIALS.email rt))
         (Some (config.CREDENTIALS.password rt)) ;;;
       let* loginSuccess := LoginPage.verifyLoginSuccess rt loginPage in
       (if negb loginSuccess
        then throw (Error "Login verification failed")
        else ret tt) ;;;
       logger.pass "Successfully authenticated"
     else
       logger.info "Already authenticated - skipping login") ;;;
    let pageObjects := mkPageObjects page homePage loginPage in
    use pageObjects ;;;
    logger.info "Authenticated page fixture teardown completed"
  CATCH error =>
    logger.error "Failed to set up authenticated page" error ;;;
    throw error.

End fixtures.

(** What the [pages] fixture hands to the test body. *)
Record allPages : Type := mkAllPages {
  ap_basePage : page_object;
  ap_loginPage : page_object;
  ap_homePage : page_object;
}.

Section pages.
Context {W : Type}.

Definition pages (page : jsval) (use : allPages → M W unit) : M W unit :=
  logger.debug "Setting up page objects fixture" ;;;
  let* basePage := BasePage.constructor page in
  let* loginPage := LoginPage.constructor page in
  let* homePage := HomePage.constructor page in
  let pageObjects := mkAllPages basePage loginPage homePage in
  use pageObjects.

End pages.
End fixtures.

(** ** A small simulated browser, to run the page objects on concrete pages *)

Module Sim.

(** The visible elements with their text, the values typed so far, and
    what a click on an element replaces the page with. *)
Record dom : Type := mkDom {
  elements : list (locator * string);
  typed : list (locator * string);
  on_click : list (locator * list (locator * string));
}.

Fixpoint find {A} (l : locator) (xs : list (locator * A)) : option A :=
  match xs with
  | [] => None
  | (l', a) :: rest => if decide (l = l') then Some a else find l rest
  end.

Definition present (l : locator) (d : dom) : bool :=
  if find l (elements d) is Some _ then true else false.

Definition TimeoutError : error :=
  mkError "TimeoutError" "Timeout exceeded while waiting for locator".

Definition exec (X : Type) (page : jsval) (o : op X) (d : dom)
  : result X * dom :=
  match o in op X return result X * dom with
  | PageGoto _ _ => (Ok JNull, d)
  | Click l _ =>
      if present l d then
        match find l (on_click d) with
        | Some els => (Ok tt, mkDom els (typed d) (on_click d))
        | None => (Ok tt, d)
        end
      else (Throw TimeoutError, d)
  | Fill l v _ =>
      if present l d
      then (Ok tt, mkDom (elements d) ((l, v) :: typed d) (on_click d))
      else (Throw TimeoutError, d)
  | IsVisible l _ => (Ok (present l d), d)
  | WaitFor l _ =>
      if present l d then (Ok tt, d) else (Throw TimeoutError, d)
  | Count l => (Ok (if present l d then 1 else 0), d)
  | TextContent l =>
      match find l (elements d) with
      | Some t => (Ok (Some t), d)
      | None => (Throw TimeoutError, d)
      end
  | Press l _ =>
      if present l d then (Ok tt, d) else (Throw TimeoutError, d)
  | Clear l =>
      if present l d then (Ok tt, d) else (Throw TimeoutError, d)
  end.

Definition SyntaxError : error :=
  mkError "SyntaxError" "Invalid regular expression: /(/: Unterminated group".

(** No environment variable set; only the pattern [(] is malformed. *)
Definition rt : runtime dom := {|
  rt_env := ∅;
  rt_exec := exec;
  rt_elapse := fun _ d => d;
  rt_regexp_error :=
    fun src => if String.eqb src "(" then Some SyntaxError else None;
|}.

Definition handle : jsval := JObj 1.
Definition this : page_object := mkPageObject handle.

Definition start (d : dom) : st dom := mkSt d [].

(** An empty page. *)
Definition blank : dom := mkDom [] [] [].

(** A login page whose submit control leads to a product page. *)
Definition shop : list (locator * string) :=
  [(First (GetByText (mkRegExp "shirt" "i")), "Shirt");
   (HomePage.getAllProducts, "")].

Definition login_form : dom :=
  mkDom
    [(LoginPage.getEmailField, "");
     (LoginPage.getPasswordField, "");
     (LoginPage.getLoginButton, "Sign in")]
    []
    [(LoginPage.getLoginButton, shop)].

(** A login page that stays where it is and shows a blank alert. *)
Definition stuck_form : dom :=
  mkDom
    [(LoginPage.getEmailField, "");
     (LoginPage.getPasswordField, "");
     (LoginPage.getLoginButton, "Sign in");
     (LoginPage.errorElement, " ")]
    [] [].

(** A broken login page: the password field is missing. *)
Definition email_only : dom :=
  mkDom [(LoginPage.getEmailField, "")] [] [].

(** A product page without any add-to-cart control. *)
Definition shop_page : dom := mkDom shop [] [].

(** A browser whose page has been closed: every operation rejects. *)
Definition ClosedError : error :=
  mkError "Error" "Target page, context or browser has been closed".

Definition closed_exec (X : Type) (page : jsval) (o : op X) (d : dom)
  : result X * dom := (Throw ClosedError, d).

Definition closed_rt : runtime dom := {|
  rt_env := {[ "BASE_URL" := "https://staging.shop.test/" ]};
  rt_exec := closed_exec;
  rt_elapse := fun _ d => d;
  rt_regexp_error :=
    fun src => if String.eqb src "(" then Some SyntaxError else None;
|}.

(** A catalogue page with a search field but no search button, a sort
    control without options, and a cart badge. *)
Definition catalogue : dom :=
  mkDom
    [(HomePage.getSearchInput, "");
     (HomePage.getFilterButton, "Sort");
     (HomePage.cartBadge, "Cart (12 items)");
     (HomePage.getAllProducts, "")]
    [] [].

(** [parseInt] on a string of decimal digits, exact. *)
Definition parseInt (digits : string) : Z :=
  Z.of_N
    (fold_left
       (fun acc c => (10 * acc + (N_of_ascii c - 48))%N)
       (list_ascii_of_string digits) 0%N).

(** A login page whose alert holds one ideographic space (U+3000) and
    one whose alert holds a no-break space, a line separator and a tab. *)
Definition wide_blank_form : dom :=
  mkDom
    [(LoginPage.getEmailField, "");
     (LoginPage.errorElement, utf8 0x3000)]
    [] [].

Definition mixed_blank_form : dom :=
  mkDom
    [(LoginPage.getEmailField, "");
     (LoginPage.errorElement, utf8_string [0xA0; 0x2028; 0x9]%N)]
    [] [].

End Sim.

(** ** Observations on traces *)

(** The primitive calls and delays of a trace, log lines dropped. *)
Fixpoint calls (t : list event) : list event :=
  match t with
  | [] => []
  | ELog _ _ _ :: rest => calls rest
  | ev :: rest => ev :: calls rest
  end.

(** The three locator kinds the visibility methods know. *)
Definition known_kind (k : string) : bool :=
  String.eqb k "role" || String.eqb k "text" || String.eqb k "testId".

(** The element [isVisible] and [waitForVisibility] look for, when the
    kind is one they know. *)
Definition target_of (kind value : string) : option locator :=
  if String.eqb kind "role" then Some (GetByRole value RoleOnly)
  else if String.eqb kind "text" then Some (GetByText (mkRegExp value "i"))
  else if String.eqb kind "testId" then Some (GetByTestId value)
  else None.

(** The page does not show the element: the visibility query answers
    [false] or fails. *)
Definition not_visible {W} (rt : runtime W) (page : jsval) (l : locator)
    (timeout : Z) (w : W) : Prop :=
  fst (rt_exec rt page (IsVisible l (timeout_opt timeout)) w) ≠ Ok true.

(** The page holds no match: the count query answers [0] or fails. *)
Definition none_counted {W} (rt : runtime W) (page : jsval) (l : locator)
    (w : W) : Prop :=
  ∀ n, fst (rt_exec rt page (Count l) w) = Ok n → n = 0.

(** An event that leaves the page alone: a log line or one of the
    read-only queries. *)
Definition is_query (ev : event) : bool :=
  match ev with
  | ELog _ _ _ => true
  | ECall _ o =>
      match o with
      | IsVisible _ _ | Count _ | TextContent _ => true
      | _ => false
      end
  | EDelay _ => false
  end.

(** Whether a visibility query answered yes; a failed query counts as no. *)
Definition answered_yes (r : result bool) : bool :=
  match r with Ok true => true | _ => false end.

(** A run that did not reach the page: same world, no new call. *)
Definition untouched {W A} (s : st W) (run : result A * st W) : Prop :=
  world (snd run) = world s ∧ calls (trace (snd run)) = calls (trace s).

(** A run that made one click and waited the settle delay only if the
    click succeeded; its outcome is the outcome of the click. *)
Definition click_then_settle {W} (rt : runtime W) (page : jsval)
    (click : op unit) (s : st W) (run : result unit * st W) : Prop :=
  match rt_exec rt page click (world s) with
  | (Ok _, w1) =>
      fst run = Ok tt
      ∧ world (snd run) = rt_elapse rt config.DELAYS.MEDIUM_DELAY w1
      ∧ calls (trace (snd run))
        = (calls (trace s)
             ++ [ECall page click; EDelay config.DELAYS.MEDIUM_DELAY])%list
  | (Throw e, w1) =>
      fst run = Throw e
      ∧ world (snd run) = w1
      ∧ calls (trace (snd run)) = (calls (trace s) ++ [ECall page click])%list
  end.

(** A run that added only log lines and read-only queries to the trace. *)
Definition only_queries {W A} (s : st W) (run : result A * st W) : Prop :=
  ∃ t, trace (snd run) = (trace s ++ t)%list ∧ forallb is_query t = true.

(** ** Basic facts *)

Lemma calls_app (t u : list event) :
  calls (t ++ u) = (calls t ++ calls u)%list.
Proof.
  induction t as [|ev t IH]; [reflexivity|].
  destruct ev; simpl; rewrite ?IH; reflexivity.
Qed.

Example sim_login_runs :
  fst (LoginPage.login Sim.rt Sim.this None None (Sim.start Sim.login_form))
  = Ok tt.
Proof. vm_compute. reflexivity. Qed.

(** ** Proof support *)

(** Unfold the monad and the logger down to state-passing functions. *)
Ltac unfold_monad :=
  repeat progress
    unfold catch_value, try_catch, bind, ret, throw, emit, perform, sleep,
      RegExp_new, BasePage.delay,
      logger.info, logger.pass, logger.warn, logger.debug, logger.error,
      logger.section in *;
  cbn beta in *.

(** Case analysis on the answer of the automation library at hand. *)
Ltac split_exec :=
  match goal with
  | |- context [rt_exec ?rt ?p ?o ?w] =>
      let r := fresh "r" in
      let w' := fresh "w" in
      let E := fresh "Hexec" in
      destruct (rt_exec rt p o w) as [r w'] eqn:E; destruct r; cbn
  end.

Lemma known_kind_false (k : string) :
  known_kind k = false →
  String.eqb k "role" = false ∧ String.eqb k "text" = false
  ∧ String.eqb k "testId" = false.
Proof.
  unfold known_kind. intros H.
  destruct (String.eqb k "role"), (String.eqb k "text"),
    (String.eqb k "testId"); simpl in H; try discriminate; auto.
Qed.

Section Unknown_kind.
Context {W : Type} (rt : runtime W).

(** With an unknown kind, [isVisible] reaches its [throw] and its own
    [catch] turns it into [false]: one debug line, no call to the page. *)
Lemma isVisible_unknown_kind (this : page_object) (kind value : string)
    (s : st W) :
  known_kind kind = false →
  BasePage.isVisible rt this kind value s
  = (Ok false,
     mkSt (world s)
       (trace s ++ [ELog DEBUG ("Element not visible: " +:+ value) None])).
Proof.
  intros H. apply known_kind_false in H as (Hr & Ht & Hi).
  unfold BasePage.isVisible. rewrite Hr, Ht, Hi.
  reflexivity.
Qed.

(** With an unknown kind, [waitForVisibility] logs the error and throws
    it again: the caller receives it. *)
Lemma waitForVisibility_unknown_kind (this : page_object)
    (kind value : string) (timeout : option Z) (s : st W) :
  known_kind kind = false →
  BasePage.waitForVisibility rt this kind value timeout s
  = (Throw (Error ("Unknown locator type: " +:+ kind)),
     mkSt (world s)
       (trace s
          ++ [ELog ERROR ("Element did not become visible: " +:+ value)
                (Some (Error ("Unknown locator type: " +:+ kind)))])).
Proof.
  intros H. apply known_kind_false in H as (Hr & Ht & Hi).
  unfold BasePage.waitForVisibility. rewrite Hr, Ht, Hi.
  reflexivity.
Qed.
End Unknown_kind.

(** ** C1: isVisible with an unknown locator kind *)

(** C1, as stated, fails: on the empty simulated page, [isVisible] called
    with the kind [css] returns [false]; no error reaches the caller. *)
Lemma C1_counterexample :
  known_kind "css" = false
  ∧ BasePage.isVisible Sim.rt Sim.this "css" "#login" (Sim.start Sim.blank)
    = (Ok false,
       mkSt Sim.blank [ELog DEBUG "Element not visible: #login" None])
  ∧ ¬ (∀ kind value, known_kind kind = false →
       ∃ e s', BasePage.isVisible Sim.rt Sim.this kind value
                 (Sim.start Sim.blank) = (Throw e, s')).
Proof.
  split; [reflexivity|]. split; [reflexivity|].
  intros H. destruct (H "css" "#login" eq_refl) as (e & s' & He).
  discriminate He.
Qed.

(** C1 (amended): for every call to BasePage.isVisible whose locator kind
    is not role, text or testId, the Unknown-locator-type error is raised
    and caught inside the method: the call returns false, the page is not
    consulted (the world is unchanged and the only new trace entry is the
    debug line), and no error reaches the caller. *)
Theorem C1_isVisible_unknown_kind_returns_false :
  ∀ (W : Type) (rt : runtime W) (this : page_object) (kind value : string)
    (s : st W),
    known_kind kind = false →
    BasePage.isVisible rt this kind value s
    = (Ok false,
       mkSt (world s)
         (trace s ++ [ELog DEBUG ("Element not visible: " +:+ value) None]))
    ∧ ∀ e s', BasePage.isVisible rt this kind value s ≠ (Throw e, s').
Proof.
  intros W rt this kind value s H.
  rewrite (isVisible_unknown_kind rt this kind value s H).
  split; [reflexivity | intros e s' Heq; discriminate Heq].
Qed.

Lemma C1_witness :
  known_kind "xpath" = false
  ∧ BasePage.isVisible Sim.rt Sim.this "xpath" "//a" (Sim.start Sim.login_form)
    = (Ok false,
       mkSt Sim.login_form [ELog DEBUG "Element not visible: //a" None]).
Proof.
  split; [reflexivity|].
  apply (C1_isVisible_unknown_kind_returns_false _ Sim.rt Sim.this "xpath"
           "//a" (Sim.start Sim.login_form)).
  reflexivity.
Defined.

(** ** C10: waitForVisibility and isVisible disagree on an unknown kind *)

(** C10: called with a locator kind that is not role, text or testId,
    BasePage.waitForVisibility logs the Unknown-locator-type error and
    throws it to the caller, while BasePage.isVisible, on the same
    arguments and state, returns false through its catch path. *)
Theorem C10_unknown_kind_asymmetry :
  ∀ (W : Type) (rt : runtime W) (this : page_object) (kind value : string)
    (timeout : option Z) (s : st W),
    known_kind kind = false →
    BasePage.waitForVisibility rt this kind value timeout s
    = (Throw (Error ("Unknown locator type: " +:+ kind)),
       mkSt (world s)
         (trace s
            ++ [ELog ERROR ("Element did not become visible: " +:+ value)
                  (Some (Error ("Unknown locator type: " +:+ kind)))]))
    ∧ fst (BasePage.isVisible rt this kind value s) = Ok false.
Proof.
  intros W rt this kind value timeout s H. split.
  - apply waitForVisibility_unknown_kind, H.
  - rewrite (isVisible_unknown_kind rt this kind value s H). reflexivity.
Qed.

Lemma C10_witness :
  known_kind "css" = false
  ∧ fst (BasePage.waitForVisibility Sim.rt Sim.this "css" ".btn" None
           (Sim.start Sim.login_form))
    = Throw (Error "Unknown locator type: css")
  ∧ fst (BasePage.isVisible Sim.rt Sim.this "css" ".btn"
           (Sim.start Sim.login_form)) = Ok false.
Proof.
  split; [reflexivity|].
  destruct (C10_unknown_kind_asymmetry _ Sim.rt Sim.this "css" ".btn" None
              (Sim.start Sim.login_form) eq_refl) as [Hw Hv].
  split; [rewrite Hw; reflexivity | exact Hv].
Defined.

(** ** C3: construction requires a page handle *)

(** C3: constructing a BasePage, LoginPage or HomePage with null or with a
    missing (undefined) page handle throws the initialization error;
    constructing it with a page handle (an object) succeeds and stores
    exactly that handle; and whenever construction succeeds the stored
    handle is the argument, which is neither null nor undefined, while
    whenever it fails the error is the initialization error. *)
Theorem C3_construction_requires_page_handle :
  ∀ (W : Type) (s : st W),
    let init_error :=
      Error "Page object is required to initialize BasePage" in
    BasePage.constructor JNull s = (Throw init_error, s)
    ∧ BasePage.constructor JUndefined s = (Throw init_error, s)
    ∧ LoginPage.constructor JNull s = (Throw init_error, s)
    ∧ LoginPage.constructor JUndefined s = (Throw init_error, s)
    ∧ HomePage.constructor JNull s = (Throw init_error, s)
    ∧ HomePage.constructor JUndefined s = (Throw init_error, s)
    ∧ (∀ ref,
         BasePage.constructor (JObj ref) s = (Ok (mkPageObject (JObj ref)), s)
         ∧ fst (LoginPage.constructor (JObj ref) s)
           = Ok (mkPageObject (JObj ref))
         ∧ fst (HomePage.constructor (JObj ref) s)
           = Ok (mkPageObject (JObj ref)))
    ∧ (∀ p,
         match fst (BasePage.constructor p s),
               fst (LoginPage.constructor p s),
               fst (HomePage.constructor p s) with
         | Ok b, Ok l, Ok h =>
             page b = p ∧ page l = p ∧ page h = p
             ∧ p ≠ JNull ∧ p ≠ JUndefined ∧ truthy p = true
         | Throw e1, Throw e2, Throw e3 =>
             e1 = init_error ∧ e2 = init_error ∧ e3 = init_error
             ∧ truthy p = false
         | _, _, _ => False
         end).
Proof.
  intros W s init_error.
  repeat (split; [reflexivity|]).
  split.
  - intros ref. repeat split.
  - intros p.
    unfold LoginPage.constructor, HomePage.constructor, BasePage.constructor.
    unfold_monad.
    destruct (truthy p) eqn:Hp; cbn.
    + repeat split; try reflexivity; intros ->; discriminate Hp.
    + repeat split.
Qed.

(** ** C2: tolerant probes never raise *)

Section Tolerant.
Context {W : Type} (rt : runtime W) (this : page_object).

Lemma isVisible_total (kind value : string) (s : st W) :
  ∃ b s', BasePage.isVisible rt this kind value s = (Ok b, s').
Proof.
  unfold BasePage.isVisible. unfold_monad.
  destruct (String.eqb kind "role"); [ | destruct (String.eqb kind "text");
    [destruct (rt_regexp_error rt value)|destruct (String.eqb kind "testId")]];
    cbn; try (eexists; eexists; reflexivity);
    split_exec; eexists; eexists; reflexivity.
Qed.

Lemma isVisible_absent (kind value : string) (s : st W) :
  (∀ l, target_of kind value = Some l →
        not_visible rt (page this) l config.TIMEOUTS.SHORT (world s)) →
  fst (BasePage.isVisible rt this kind value s) = Ok false.
Proof.
  unfold target_of, not_visible, BasePage.isVisible. unfold_monad.
  intros H.
  destruct (String.eqb kind "role"); [ | destruct (String.eqb kind "text");
    [destruct (rt_regexp_error rt value)|destruct (String.eqb kind "testId")]];
    cbn; try reflexivity;
    specialize (H _ eq_refl);
    split_exec; try reflexivity;
    match goal with b : bool |- _ => destruct b end;
    solve [reflexivity | contradiction H; reflexivity].
Qed.
End Tolerant.

(** C2: on every page state the tolerant probes return a value and never
    raise: BasePage.isVisible, HomePage.getProductCount,
    LoginPage.getErrorMessage, and the boolean probes isErrorDisplayed,
    isLoginFormDisplayed, isProductGridDisplayed, isNoResultsDisplayed and
    isFeaturedSectionDisplayed.  When the target element is absent (its
    visibility query answers false or fails, its count query answers 0 or
    fails) the value is the conservative default: false for the boolean
    probes, 0 for the count and null for the error-message text. *)
Theorem C2_tolerant_probes_never_raise :
  ∀ (W : Type) (rt : runtime W) (this : page_object) (s : st W),
    let absent l := not_visible rt (page this) l config.TIMEOUTS.SHORT (world s) in
    (* never an error, whatever the page *)
    ((∀ kind value, ∃ b s', BasePage.isVisible rt this kind value s = (Ok b, s'))
     ∧ (∃ n s', HomePage.getProductCount rt this s = (Ok n, s'))
     ∧ (∃ m s', LoginPage.getErrorMessage rt this s = (Ok m, s'))
     ∧ (∃ b s', LoginPage.isErrorDisplayed rt this s = (Ok b, s'))
     ∧ (∃ b s', LoginPage.isLoginFormDisplayed rt this s = (Ok b, s'))
     ∧ (∃ b s', HomePage.isProductGridDisplayed rt this s = (Ok b, s'))
     ∧ (∃ b s', HomePage.isNoResultsDisplayed rt this s = (Ok b, s'))
     ∧ (∃ b s', HomePage.isFeaturedSectionDisplayed rt this s = (Ok b, s')))
    (* the conservative default when the target is absent *)
    ∧ ((∀ kind value,
          (∀ l, target_of kind value = Some l → absent l) →
          fst (BasePage.isVisible rt this kind value s) = Ok false)
       ∧ (none_counted rt (page this) HomePage.getAllProducts (world s) →
          fst (HomePage.getProductCount rt this s) = Ok 0)
       ∧ (absent LoginPage.errorElement →
          fst (LoginPage.getErrorMessage rt this s) = Ok None)
       ∧ (absent LoginPage.errorElement →
          fst (LoginPage.isErrorDisplayed rt this s) = Ok false)
       ∧ (absent LoginPage.getEmailField →
          fst (LoginPage.isLoginFormDisplayed rt this s) = Ok false)
       ∧ (absent HomePage.getProductGrid →
          fst (HomePage.isProductGridDisplayed rt this s) = Ok false)
       ∧ (absent HomePage.noResultsLocator →
          fst (HomePage.isNoResultsDisplayed rt this s) = Ok false)
       ∧ (absent HomePage.getFeaturedSection →
          fst (HomePage.isFeaturedSectionDisplayed rt this s) = Ok false)).
Proof.
  intros W rt this s absent. subst absent. split.
  - split; [intros; apply isVisible_total|].
    repeat split.
    + unfold HomePage.getProductCount. unfold_monad.
      split_exec; eexists; eexists; reflexivity.
    + unfold LoginPage.getErrorMessage. unfold_monad.
      split_exec; [match goal with b : bool |- _ => destruct b end; cbn;
                   [split_exec|] |]; eexists; eexists; reflexivity.
    + unfold LoginPage.isErrorDisplayed, LoginPage.getErrorMessage.
      unfold_monad.
      split_exec; [match goal with b : bool |- _ => destruct b end; cbn;
                   [split_exec|] |]; eexists; eexists; reflexivity.
    + unfold LoginPage.isLoginFormDisplayed. unfold_monad.
      repeat (split_exec; try match goal with b : bool |- _ => destruct b end;
              cbn);
        eexists; eexists; reflexivity.
    + unfold HomePage.isProductGridDisplayed. unfold_monad.
      split_exec; try match goal with b : bool |- _ => destruct b end; cbn;
        eexists; eexists; reflexivity.
    + unfold HomePage.isNoResultsDisplayed. unfold_monad.
      split_exec; try match goal with b : bool |- _ => destruct b end; cbn;
        eexists; eexists; reflexivity.
    + unfold HomePage.isFeaturedSectionDisplayed. unfold_monad.
      split_exec; try match goal with b : bool |- _ => destruct b end; cbn;
        eexists; eexists; reflexivity.
  - split; [intros; apply isVisible_absent; assumption|].
    unfold not_visible, none_counted.
    repeat split; intros H.
    + unfold HomePage.getProductCount. unfold_monad.
      split_exec; [|reflexivity].
      f_equal. apply H. reflexivity.
    + unfold LoginPage.getErrorMessage. unfold_monad.
      split_exec; [|reflexivity].
      match goal with b : bool |- _ => destruct b end; cbn; [|reflexivity].
      contradiction H. reflexivity.
    + unfold LoginPage.isErrorDisplayed, LoginPage.getErrorMessage.
      unfold_monad.
      split_exec; [|reflexivity].
      match goal with b : bool |- _ => destruct b end; cbn; [|reflexivity].
      contradiction H. reflexivity.
    + unfold LoginPage.isLoginFormDisplayed. unfold_monad.
      split_exec;
        [match goal with b : bool |- _ => destruct b end;
         [contradiction H; reflexivity|] |];
        repeat (split_exec; try match goal with b : bool |- _ => destruct b end;
                cbn); reflexivity.
    + unfold HomePage.isProductGridDisplayed. unfold_monad.
      split_exec; [|reflexivity].
      match goal with b : bool |- _ => destruct b end; cbn; [|reflexivity].
      contradiction H. reflexivity.
    + unfold HomePage.isNoResultsDisplayed. unfold_monad.
      split_exec; [|reflexivity].
      match goal with b : bool |- _ => destruct b end; cbn; [|reflexivity].
      contradiction H. reflexivity.
    + unfold HomePage.isFeaturedSectionDisplayed. unfold_monad.
      split_exec; [|reflexivity].
      match goal with b : bool |- _ => destruct b end; cbn; [|reflexivity].
      contradiction H. reflexivity.
Qed.

Lemma C2_witness :
  fst (BasePage.isVisible Sim.rt Sim.this "text" "Welcome"
         (Sim.start Sim.blank)) = Ok false
  ∧ fst (HomePage.getProductCount Sim.rt Sim.this (Sim.start Sim.blank)) = Ok 0
  ∧ fst (LoginPage.getErrorMessage Sim.rt Sim.this (Sim.start Sim.blank))
    = Ok None.
Proof.
  destruct (C2_tolerant_probes_never_raise _ Sim.rt Sim.this
              (Sim.start Sim.blank)) as [_ (Hv & Hc & He & _)].
  split; [|split].
  - apply Hv. intros l Hl. vm_compute in Hl. inversion Hl; subst l.
    intros H. vm_compute in H. discriminate H.
  - apply Hc. intros n Hn. vm_compute in Hn. inversion Hn. reflexivity.
  - apply He. intros H. vm_compute in H. discriminate H.
Defined.

(** ** C4: fillPassword and its placeholder fallback *)

(** C4: BasePage.fillPassword first fills the password input found by
    label.  If that succeeds the call succeeds.  If it fails, the method
    falls back to the input found by placeholder text matching the name
    and fills that, starting from the page as the failed attempt left it:
    if the fallback succeeds the call succeeds; if the fallback fails
    (the fill fails, or the name is not a well-formed pattern) the error
    raised to the caller is the fallback's error, not the first one. *)
Theorem C4_fillPassword_fallback :
  ∀ (W : Type) (rt : runtime W) (this : page_object) (name value : string)
    (options : object) (s : st W),
    let primary := Fill (BasePage.passwordByLabel name) value options in
    let fallback :=
      Fill (GetByPlaceholder (mkRegExp name "i")) value options in
    let failure e :=
      ELog ERROR ("Failed to fill password field " +:+ dq +:+ name +:+ dq)
        (Some e) in
    (* the first attempt succeeds *)
    (∀ w1,
       rt_exec rt (page this) primary (world s) = (Ok tt, w1) →
       BasePage.fillPassword rt this name value options s
       = (Ok tt,
          mkSt w1
            (trace s
               ++ [ECall (page this) primary;
                   ELog PASS "Filled password field with masked value" None])))
    (* the first attempt fails, the fallback succeeds *)
    ∧ (∀ e1 w1 w2,
         rt_exec rt (page this) primary (world s) = (Throw e1, w1) →
         rt_regexp_error rt name = None →
         rt_exec rt (page this) fallback w1 = (Ok tt, w2) →
         BasePage.fillPassword rt this name value options s
         = (Ok tt,
            mkSt w2
              (trace s
                 ++ [ECall (page this) primary; ECall (page this) fallback;
                     ELog PASS "Filled password field with placeholder" None])))
    (* both fail: the caller receives the fallback's error *)
    ∧ (∀ e1 e2 w1 w2,
         rt_exec rt (page this) primary (world s) = (Throw e1, w1) →
         rt_regexp_error rt name = None →
         rt_exec rt (page this) fallback w1 = (Throw e2, w2) →
         BasePage.fillPassword rt this name value options s
         = (Throw e2,
            mkSt w2
              (trace s
                 ++ [ECall (page this) primary; ECall (page this) fallback;
                     failure e2])))
    (* the fallback cannot even build its pattern *)
    ∧ (∀ e1 e2 w1,
         rt_exec rt (page this) primary (world s) = (Throw e1, w1) →
         rt_regexp_error rt name = Some e2 →
         BasePage.fillPassword rt this name value options s
         = (Throw e2,
            mkSt w1 (trace s ++ [ECall (page this) primary; failure e2]))).
Proof.
  intros W rt this name value options s primary fallback failure.
  subst primary fallback failure.
  unfold BasePage.fillPassword. unfold_monad.
  repeat split.
  - intros w1 H1. rewrite H1. cbn. rewrite <- app_assoc. reflexivity.
  - intros e1 w1 w2 H1 Hre H2. rewrite H1, Hre. cbn. rewrite H2. cbn.
    rewrite <- !app_assoc. reflexivity.
  - intros e1 e2 w1 w2 H1 Hre H2. rewrite H1, Hre. cbn. rewrite H2. cbn.
    rewrite <- !app_assoc. reflexivity.
  - intros e1 e2 w1 H1 Hre. rewrite H1, Hre. cbn.
    rewrite <- !app_assoc. reflexivity.
Qed.

Lemma C4_witness :
  BasePage.fillPassword Sim.rt Sim.this "password" "s3cret" ∅
    (Sim.start Sim.login_form)
  = (Ok tt,
     mkSt
       (Sim.mkDom (Sim.elements Sim.login_form)
          [(LoginPage.getPasswordField, "s3cret")]
          (Sim.on_click Sim.login_form))
       [ECall Sim.handle (Fill (BasePage.passwordByLabel "password") "s3cret" ∅);
        ECall Sim.handle (Fill LoginPage.getPasswordField "s3cret" ∅);
        ELog PASS "Filled password field with placeholder" None]).
Proof.
  destruct (C4_fillPassword_fallback _ Sim.rt Sim.this "password" "s3cret" ∅
              (Sim.start Sim.login_form)) as (_ & H & _).
  apply (H Sim.TimeoutError Sim.login_form); reflexivity.
Defined.

(** ** C5: login is a strict sequence *)

Section Login_steps.
Context {W : Type} (rt : runtime W) (this : page_object).

Lemma enterEmail_calls (email : string) (s : st W) :
  calls (trace (snd (LoginPage.enterEmail rt this email s)))
  = (calls (trace s)
       ++ [ECall (page this)
             (Fill LoginPage.getEmailField email
                (timeout_opt config.TIMEOUTS.ELEMENT))])%list.
Proof.
  unfold LoginPage.enterEmail. unfold_monad.
  split_exec; rewrite !calls_app, <- ?app_assoc; cbn;
    rewrite ?app_nil_r; reflexivity.
Qed.

Lemma enterPassword_calls (password : string) (s : st W) :
  calls (trace (snd (LoginPage.enterPassword rt this password s)))
  = (calls (trace s)
       ++ [ECall (page this)
             (Fill LoginPage.getPasswordField password
                (timeout_opt config.TIMEOUTS.ELEMENT))])%list.
Proof.
  unfold LoginPage.enterPassword. unfold_monad.
  split_exec; rewrite !calls_app, <- ?app_assoc; cbn;
    rewrite ?app_nil_r; reflexivity.
Qed.

Lemma clickLoginButton_calls (s : st W) :
  calls (trace (snd (LoginPage.clickLoginButton rt this s)))
  = (calls (trace s)
       ++ ECall (page this)
            (Click LoginPage.getLoginButton
               (timeout_opt config.TIMEOUTS.ELEMENT))
       :: match fst (LoginPage.clickLoginButton rt this s) with
          | Ok _ => [EDelay config.DELAYS.MEDIUM_DELAY]
          | Throw _ => []
          end)%list.
Proof.
  unfold LoginPage.clickLoginButton. unfold_monad.
  split_exec; rewrite !calls_app, <- ?app_assoc; cbn;
    rewrite ?app_nil_r; reflexivity.
Qed.
End Login_steps.

(** C5: LoginPage.login runs enterEmail, then enterPassword on the state
    the first left, then clickLoginButton on the state the second left.
    When a step throws, the later steps are not run (the primitive calls
    made are exactly those of the steps up to the failing one, each made
    once), login throws that very error, and the page stays as the
    failing step left it: nothing is retried and nothing is undone. *)
Theorem C5_login_is_a_strict_sequence :
  ∀ (W : Type) (rt : runtime W) (this : page_object) (email password : string)
    (s : st W),
    let s0 :=
      mkSt (world s) (trace s ++ [ELog INFO "Starting login process" None]) in
    let failed e (s' : st W) : result unit * st W :=
      (Throw e,
       mkSt (world s')
         (trace s' ++ [ELog ERROR "Login process failed" (Some e)])) in
    let run := LoginPage.login rt this (Some email) (Some password) s in
    let opts := timeout_opt config.TIMEOUTS.ELEMENT in
    let fill_email := ECall (page this) (Fill LoginPage.getEmailField email opts) in
    let fill_password :=
      ECall (page this) (Fill LoginPage.getPasswordField password opts) in
    let click := ECall (page this) (Click LoginPage.getLoginButton opts) in
    (* enterEmail fails *)
    (∀ e s1,
       LoginPage.enterEmail rt this email s0 = (Throw e, s1) →
       run = failed e s1
       ∧ calls (trace (snd run)) = (calls (trace s) ++ [fill_email])%list)
    (* enterPassword fails *)
    ∧ (∀ e s1 s2,
         LoginPage.enterEmail rt this email s0 = (Ok tt, s1) →
         LoginPage.enterPassword rt this password s1 = (Throw e, s2) →
         run = failed e s2
         ∧ calls (trace (snd run))
           = (calls (trace s) ++ [fill_email; fill_password])%list)
    (* clickLoginButton fails *)
    ∧ (∀ e s1 s2 s3,
         LoginPage.enterEmail rt this email s0 = (Ok tt, s1) →
         LoginPage.enterPassword rt this password s1 = (Ok tt, s2) →
         LoginPage.clickLoginButton rt this s2 = (Throw e, s3) →
         run = failed e s3
         ∧ calls (trace (snd run))
           = (calls (trace s) ++ [fill_email; fill_password; click])%list)
    (* all three succeed *)
    ∧ (∀ s1 s2 s3,
         LoginPage.enterEmail rt this email s0 = (Ok tt, s1) →
         LoginPage.enterPassword rt this password s1 = (Ok tt, s2) →
         LoginPage.clickLoginButton rt this s2 = (Ok tt, s3) →
         run
         = (Ok tt,
            mkSt (world s3)
              (trace s3 ++ [ELog PASS "Login completed successfully" None]))
         ∧ calls (trace (snd run))
           = (calls (trace s)
                ++ [fill_email; fill_password; click;
                    EDelay config.DELAYS.MEDIUM_DELAY])%list).
Proof.
  intros W rt this email password s s0 failed run opts fill_email
    fill_password click.
  assert (Hs0 : calls (trace s0) = calls (trace s)).
  { subst s0. cbn. rewrite calls_app. cbn. apply app_nil_r. }
  assert (Hrun : run
    = match LoginPage.enterEmail rt this email s0 with
      | (Throw e, s1) => failed e s1
      | (Ok _, s1) =>
          match LoginPage.enterPassword rt this password s1 with
          | (Throw e, s2) => failed e s2
          | (Ok _, s2) =>
              match LoginPage.clickLoginButton rt this s2 with
              | (Throw e, s3) => failed e s3
              | (Ok _, s3) =>
                  (Ok tt,
                   mkSt (world s3)
                     (trace s3
                        ++ [ELog PASS "Login completed successfully" None]))
              end
          end
      end).
  { subst run failed s0. unfold LoginPage.login. unfold_monad. cbn.
    destruct (LoginPage.enterEmail rt this email _) as [[[]|e1] s1];
      [|reflexivity].
    destruct (LoginPage.enterPassword rt this password s1) as [[[]|e2] s2];
      [|reflexivity].
    destruct (LoginPage.clickLoginButton rt this s2) as [[[]|e3] s3];
      reflexivity. }
  pose proof (enterEmail_calls rt this email s0) as Hemail.
  rewrite Hs0 in Hemail.
  repeat split.
  - rewrite Hrun, H. reflexivity.
  - rewrite Hrun, H. rewrite H in Hemail. subst failed. cbn [snd fst trace] in *.
    rewrite calls_app, Hemail. cbn. rewrite ?app_nil_r, <- ?app_assoc. reflexivity.
  - rewrite Hrun, H, H0. reflexivity.
  - pose proof (enterPassword_calls rt this password s1) as Hpassword.
    rewrite Hrun, H, H0. rewrite H in Hemail. rewrite H0 in Hpassword.
    subst failed. cbn [snd fst trace] in *.
    rewrite calls_app, Hpassword, Hemail. cbn. rewrite ?app_nil_r, <- ?app_assoc. reflexivity.
  - rewrite Hrun, H, H0, H1. reflexivity.
  - pose proof (enterPassword_calls rt this password s1) as Hpassword.
    pose proof (clickLoginButton_calls rt this s2) as Hclick.
    rewrite Hrun, H, H0, H1. rewrite H in Hemail. rewrite H0 in Hpassword.
    rewrite H1 in Hclick. subst failed. cbn [snd fst trace] in *.
    rewrite calls_app, Hclick, Hpassword, Hemail. cbn. rewrite ?app_nil_r, <- ?app_assoc.
    reflexivity.
  - rewrite Hrun, H, H0, H1. reflexivity.
  - pose proof (enterPassword_calls rt this password s1) as Hpassword.
    pose proof (clickLoginButton_calls rt this s2) as Hclick.
    rewrite Hrun, H, H0, H1. rewrite H in Hemail. rewrite H0 in Hpassword.
    rewrite H1 in Hclick. cbn [snd fst trace] in *.
    rewrite calls_app, Hclick, Hpassword, Hemail. cbn. rewrite ?app_nil_r, <- ?app_assoc.
    reflexivity.
Qed.

Lemma C5_witness :
  LoginPage.login Sim.rt Sim.this (Some "a@b.c") (Some "pw")
    (Sim.start Sim.email_only)
  = (Throw Sim.TimeoutError,
     mkSt
       (Sim.mkDom [(LoginPage.getEmailField, "")]
          [(LoginPage.getEmailField, "a@b.c")] [])
       [ELog INFO "Starting login process" None;
        ECall Sim.handle
          (Fill LoginPage.getEmailField "a@b.c"
             (timeout_opt config.TIMEOUTS.ELEMENT));
        ELog PASS "Entered email: a@b.c" None;
        ECall Sim.handle
          (Fill LoginPage.getPasswordField "pw"
             (timeout_opt config.TIMEOUTS.ELEMENT));
        ELog ERROR "Failed to enter password" (Some Sim.TimeoutError);
        ELog ERROR "Login process failed" (Some Sim.TimeoutError)]).
Proof.
  destruct (C5_login_is_a_strict_sequence _ Sim.rt Sim.this "a@b.c" "pw"
              (Sim.start Sim.email_only)) as (_ & H & _).
  destruct (H Sim.TimeoutError
              (snd (LoginPage.enterEmail Sim.rt Sim.this "a@b.c"
                      (mkSt Sim.email_only
                         [ELog INFO "Starting login process" None])))
              (snd (LoginPage.enterPassword Sim.rt Sim.this "pw"
                      (snd (LoginPage.enterEmail Sim.rt Sim.this "a@b.c"
                              (mkSt Sim.email_only
                                 [ELog INFO "Starting login process" None]))))))
    as [Hrun _]; [reflexivity | reflexivity |].
  rewrite Hrun. reflexivity.
Defined.

(** ** White space and [trim] *)

Section Trim.

Lemma is_space_cases (cp : N) :
  is_space cp = true → In cp (white_space ++ line_terminator).
Proof.
  unfold is_space. intros H.
  apply existsb_exists in H as (x & Hin & Heq).
  apply N.eqb_eq in Heq. subst x. exact Hin.
Qed.

(** A white-space code point at the start of a text is removed. *)
Lemma trim_start_utf8 (cp : N) (s : string) :
  is_space cp = true → trim_start (utf8 cp +:+ s) = trim_start s.
Proof.
  intros H. apply is_space_cases in H. cbn in H.
  repeat (destruct H as [<-|H]; [reflexivity|]). contradiction.
Qed.

Lemma trim_start_blank (cps : list N) :
  forallb is_space cps = true → trim_start (utf8_string cps) = "".
Proof.
  induction cps as [|cp cps IH]; [reflexivity|].
  cbn [forallb utf8_string]. intros H.
  apply andb_prop in H as [Hcp Hrest].
  rewrite (trim_start_utf8 cp _ Hcp). exact (IH Hrest).
Qed.

Lemma trim_blank (cps : list N) :
  forallb is_space cps = true → trim (utf8_string cps) = "".
Proof.
  intros H. unfold trim. rewrite (trim_start_blank cps H). reflexivity.
Qed.

Lemma byte_of_code (c : ascii) (n : N) :
  N_of_ascii c = n → c = ascii_of_N n.
Proof. intros <-. symmetry. apply ascii_N_embedding. Qed.

(** What [trim_start] leaves starts with no white space: either it is the
    text itself, or the text began with a white-space code point. *)
Lemma trim_start_cases (s : string) :
  trim_start s = s
  ∨ ∃ cp rest,
      is_space cp = true ∧ s = utf8 cp +:+ rest
      ∧ trim_start s = trim_start rest.
Proof.
  destruct s as [|c1 r1]; [left; reflexivity|].
  cbn [trim_start].
  destruct (space1 c1) eqn:H1.
  { right. unfold space1 in H1. apply andb_prop in H1 as [Hlt Hsp].
    exists (N_of_ascii c1), r1. split; [exact Hsp|]. split; [|reflexivity].
    unfold utf8. rewrite Hlt. rewrite ascii_N_embedding. reflexivity. }
  destruct r1 as [|c2 r2]; [left; reflexivity|].
  destruct (space2 c1 c2) eqn:H2.
  { right. unfold space2, is_cont in H2.
    repeat match goal with
    | Hb : _ && _ = true |- _ => apply andb_prop in Hb as [? ?]
    end.
    match goal with Hs : is_space _ = true |- _ =>
      pose proof (is_space_cases _ Hs) as Hin end.
    repeat match goal with
      | Hb : (_ <=? _)%N = true |- _ => apply N.leb_le in Hb
      end.
    assert (Hc1 : N_of_ascii c1 = 0xC2%N ∧ N_of_ascii c2 = 0xA0%N).
    { cbn in Hin. repeat (destruct Hin as [Hin|Hin]; [lia|]). contradiction. }
    destruct Hc1 as [Hc1 Hc2].
    apply byte_of_code in Hc1, Hc2. subst c1 c2.
    exists 0xA0%N, r2. repeat split. }
  destruct r2 as [|c3 r3]; [left; reflexivity|].
  destruct (space3 c1 c2 c3) eqn:H3; [|left; reflexivity].
  right. unfold space3, is_cont in H3.
  repeat match goal with
    | Hb : _ && _ = true |- _ => apply andb_prop in Hb as [? ?]
    end.
  match goal with Hs : is_space _ = true |- _ =>
    pose proof (is_space_cases _ Hs) as Hin end.
  repeat match goal with
    | Hb : (_ <=? _)%N = true |- _ => apply N.leb_le in Hb
    end.
  set (n1 := N_of_ascii c1) in *. set (n2 := N_of_ascii c2) in *.
  set (n3 := N_of_ascii c3) in *.
  assert (Hcp : ∃ cp, is_space cp = true
                      ∧ n1 = (0xE0 + cp / 4096)%N
                      ∧ n2 = (0x80 + (cp / 64) mod 64)%N
                      ∧ n3 = (0x80 + cp mod 64)%N
                      ∧ (0x800 <=? cp)%N = true ∧ (cp <? 0x10000)%N = true).
  { cbn in Hin.
    repeat (destruct Hin as [Hin|Hin];
            [first [ exfalso; lia
                   | match type of Hin with
                     | ?k = _ =>
                         exists k; split; [reflexivity|];
                         repeat split; try reflexivity;
                         match goal with
                         | |- _ = ?rhs =>
                             let v := eval vm_compute in rhs in
                             change rhs with v
                         end; lia
                     end ] |]).
    contradiction. }
  destruct Hcp as (cp & Hsp & E1 & E2 & E3 & Hlo & Hhi).
  subst n1 n2 n3. apply byte_of_code in E1, E2, E3. subst c1 c2 c3.
  exists cp, r3. split; [exact Hsp|]. split; [|reflexivity].
  unfold utf8.
  assert (Hn1 : (cp <? 0x80)%N = false) by (apply N.ltb_ge; apply N.leb_le in Hlo; lia).
  assert (Hn2 : (cp <? 0x800)%N = false) by (apply N.ltb_ge; apply N.leb_le in Hlo; lia).
  rewrite Hn1, Hn2, Hhi. reflexivity.
Qed.

Lemma string_length_append (s t : string) :
  String.length (s +:+ t) = (String.length s + String.length t)%nat.
Proof.
  induction s as [|c s IH]; [reflexivity|].
  change (S (String.length (s +:+ t))
          = S (String.length s + String.length t)).
  f_equal. exact IH.
Qed.

Lemma utf8_length (cp : N) : (1 <= String.length (utf8 cp))%nat.
Proof.
  unfold utf8.
  repeat match goal with
    | |- context [if ?b then _ else _] => destruct b
    end;
    rewrite ?string_length_append; cbn [String.length]; lia.
Qed.

(** A text that [trim_start] empties is made of white space only. *)
Lemma trim_start_empty_inv (n : nat) (s : string) :
  (String.length s <= n)%nat →
  trim_start s = "" →
  ∃ cps, forallb is_space cps = true ∧ s = utf8_string cps.
Proof.
  revert s. induction n as [|n IH]; intros s Hlen Hs.
  - destruct s; [|cbn in Hlen; lia]. exists []. split; reflexivity.
  - destruct (trim_start_cases s) as [Hfix | (cp & rest & Hsp & Heq & Hstep)].
    + rewrite Hfix in Hs. subst s. exists []. split; reflexivity.
    + rewrite Hstep in Hs.
      assert (Hrest : (String.length rest <= n)%nat).
      { subst s. rewrite string_length_append in Hlen.
        pose proof (utf8_length cp). lia. }
      destruct (IH rest Hrest Hs) as (cps & Hall & Hcps).
      exists (cp :: cps). cbn [forallb utf8_string].
      rewrite Hsp, Hall. split; [reflexivity|]. subst rest. exact Heq.
Qed.

(** Trimming the start twice trims no more. *)
Lemma trim_start_fixed (n : nat) (s : string) :
  (String.length s <= n)%nat → trim_start (trim_start s) = trim_start s.
Proof.
  revert s. induction n as [|n IH]; intros s Hlen.
  - destruct s; [reflexivity | cbn in Hlen; lia].
  - destruct (trim_start_cases s) as [Hfix | (cp & rest & Hsp & Heq & Hstep)].
    + rewrite !Hfix. reflexivity.
    + rewrite Hstep. apply IH.
      subst s. rewrite string_length_append in Hlen.
      pose proof (utf8_length cp). lia.
Qed.

(** [trim] leaves nothing exactly of the texts made of white space only,
    the empty text included. *)
Lemma trim_empty_iff (s : string) :
  trim s = ""
  ↔ ∃ cps, forallb is_space cps = true ∧ s = utf8_string cps.
Proof.
  split.
  - unfold trim. intros H.
    destruct (trim_start s) as [|c t] eqn:Hs.
    + exact (trim_start_empty_inv _ s (le_n _) Hs).
    + cbn [trim_end] in H. unfold all_space in H.
      destruct (trim_start (String c t)) as [|c' t'] eqn:Ht;
        [|discriminate H].
      rewrite <- Hs, (trim_start_fixed _ s (le_n _)), Hs in Ht.
      discriminate Ht.
  - intros (cps & Hall & ->). apply trim_blank, Hall.
Qed.

End Trim.

Example trim_examples :
  trim "  Invalid password " = "Invalid password"
  ∧ trim (utf8 0x3000 +:+ "a b" +:+ utf8 0xFEFF +:+ utf8 0x2029) = "a b"
  ∧ trim (utf8 0xE9) = utf8 0xE9
  ∧ trim (utf8_string [0x1680; 0x2000; 0x200A; 0x202F; 0x205F; 0xA0; 0xB]%N)
    = "".
Proof. repeat split. Qed.

(** ** C6: isErrorDisplayed against getErrorMessage *)

(** C6, as stated, fails: on a page whose alert holds a single space,
    getErrorMessage returns a string of length 1 and isErrorDisplayed
    returns false. *)
Lemma C6_counterexample :
  fst (LoginPage.getErrorMessage Sim.rt Sim.this (Sim.start Sim.stuck_form))
  = Ok (Some " ")
  ∧ String.length " " = 1%nat
  ∧ fst (LoginPage.isErrorDisplayed Sim.rt Sim.this (Sim.start Sim.stuck_form))
    = Ok false.
Proof. repeat split. Qed.

(** C6 (amended): for every page state, LoginPage.isErrorDisplayed
    returns, without raising, true if and only if LoginPage.getErrorMessage
    on that state returns a string that is non-empty after trimming
    surrounding white space; it returns false exactly when getErrorMessage
    yields null, the empty string or a string of white space only, white
    space being the WhiteSpace and LineTerminator code points that
    [String.prototype.trim] removes.  It leaves the state exactly as
    getErrorMessage does. *)
Theorem C6_isErrorDisplayed_iff_nonblank_message :
  ∀ (W : Type) (rt : runtime W) (this : page_object) (s : st W),
    ∃ (m : option string) (b : bool) (s' : st W),
      LoginPage.getErrorMessage rt this s = (Ok m, s')
      ∧ LoginPage.isErrorDisplayed rt this s = (Ok b, s')
      ∧ (b = true ↔
         ∃ text, m = Some text ∧ (0 < String.length (trim text))%nat)
      ∧ (m = None → b = false)
      ∧ (b = false ↔
         m = None
         ∨ ∃ cps, forallb is_space cps = true ∧ m = Some (utf8_string cps)).
Proof.
  intros W rt this s.
  assert (Hm : ∃ m s', LoginPage.getErrorMessage rt this s = (Ok m, s')).
  { unfold LoginPage.getErrorMessage. unfold_monad.
    split_exec; [match goal with b : bool |- _ => destruct b end; cbn;
                 [split_exec|] |]; eexists; eexists; reflexivity. }
  destruct Hm as (m & s' & Hm).
  exists m, (LoginPage.nonblank m), s'.
  split; [exact Hm|]. split.
  - unfold LoginPage.isErrorDisplayed. unfold_monad. rewrite Hm. reflexivity.
  - split; [|split; [intros ->; reflexivity|]].
    + unfold LoginPage.nonblank. destruct m as [text|].
      * rewrite Nat.ltb_lt. split.
        -- intros H. exists text. split; [reflexivity | exact H].
        -- intros (t & Ht & Hlen). inversion Ht; subst t. exact Hlen.
      * split; [discriminate|]. intros (t & Ht & _). discriminate Ht.
    + unfold LoginPage.nonblank. destruct m as [text|].
      * rewrite Nat.ltb_ge. split.
        -- intros H. right.
           assert (Ht : trim text = "")
             by (destruct (trim text); [reflexivity | cbn in H; lia]).
           apply trim_empty_iff in Ht as (cps & Hall & ->).
           exists cps. split; [exact Hall | reflexivity].
        -- intros [Hn | (cps & Hall & Hs)]; [discriminate Hn|].
           inversion Hs; subst text. rewrite (trim_blank cps Hall).
           cbn. lia.
      * split; [intros _; left; reflexivity | reflexivity].
Qed.

Lemma C6_witness :
  fst (LoginPage.isErrorDisplayed Sim.rt Sim.this
         (Sim.start Sim.wide_blank_form)) = Ok false
  ∧ fst (LoginPage.isErrorDisplayed Sim.rt Sim.this
           (Sim.start Sim.mixed_blank_form)) = Ok false.
Proof.
  split.
  - destruct (C6_isErrorDisplayed_iff_nonblank_message _ Sim.rt Sim.this
                (Sim.start Sim.wide_blank_form))
      as (m & b & s' & Hm & Hb & _ & _ & Hf).
    rewrite Hb. cbn [fst]. f_equal. apply Hf. right.
    exists [0x3000%N]. split; [reflexivity|].
    vm_compute in Hm. inversion Hm. reflexivity.
  - destruct (C6_isErrorDisplayed_iff_nonblank_message _ Sim.rt Sim.this
                (Sim.start Sim.mixed_blank_form))
      as (m & b & s' & Hm & Hb & _ & _ & Hf).
    rewrite Hb. cbn [fst]. f_equal. apply Hf. right.
    exists [0xA0; 0x2028; 0x9]%N. split; [reflexivity|].
    vm_compute in Hm. inversion Hm. reflexivity.
Defined.

(** ** C7: addProductToCart without an add-to-cart control *)

(** C7: when clickProduct on the named product succeeds and the
    add-to-cart control is not visible (its visibility query, made with
    the element timeout, answers false or fails), HomePage.addProductToCart
    logs a warning and returns normally, having made no further call.
    Whenever it does raise, either clickProduct raised that error, or
    clickProduct succeeded, the control was reported visible and the click
    on it raised that error. *)
Theorem C7_addProductToCart_missing_control :
  ∀ (W : Type) (rt : runtime W) (this : page_object) (name : string)
    (s : st W),
    let s0 :=
      mkSt (world s)
        (trace s ++ [ELog INFO ("Adding product to cart: " +:+ name) None]) in
    let opts := timeout_opt config.TIMEOUTS.ELEMENT in
    let probe := IsVisible HomePage.addToCartButton opts in
    let press := Click HomePage.addToCartButton opts in
    (∀ s1,
       HomePage.clickProduct rt this name s0 = (Ok tt, s1) →
       fst (rt_exec rt (page this) probe (world s1)) ≠ Ok true →
       HomePage.addProductToCart rt this name s
       = (Ok tt,
          mkSt (snd (rt_exec rt (page this) probe (world s1)))
            (trace s1
               ++ [ECall (page this) probe;
                   ELog WARN ("Add to cart button not found for: " +:+ name)
                     None])))
    ∧ (∀ e s',
         HomePage.addProductToCart rt this name s = (Throw e, s') →
         (∃ s1, HomePage.clickProduct rt this name s0 = (Throw e, s1))
         ∨ (∃ s1 w2 w3,
              HomePage.clickProduct rt this name s0 = (Ok tt, s1)
              ∧ rt_exec rt (page this) probe (world s1) = (Ok true, w2)
              ∧ rt_exec rt (page this) press w2 = (Throw e, w3))).
Proof.
  intros W rt this name s s0 opts probe press.
  subst opts probe press. split.
  - intros s1 Hclick Habsent.
    unfold HomePage.addProductToCart. unfold_monad. cbn. fold s0.
    rewrite Hclick. cbn.
    destruct (rt_exec rt (page this)
                (IsVisible HomePage.addToCartButton
                   (timeout_opt config.TIMEOUTS.ELEMENT)) (world s1))
      as [[[]|e] w2]; cbn in *.
    + contradiction Habsent. reflexivity.
    + rewrite <- app_assoc. reflexivity.
    + rewrite <- app_assoc. reflexivity.
  - intros e s'.
    unfold HomePage.addProductToCart. unfold_monad. cbn. fold s0.
    destruct (HomePage.clickProduct rt this name s0) as [[[]|e1] s1] eqn:Hc;
      cbn.
    + destruct (rt_exec rt (page this)
                  (IsVisible HomePage.addToCartButton
                     (timeout_opt config.TIMEOUTS.ELEMENT)) (world s1))
        as [[[]|e2] w2] eqn:Hv; cbn; try discriminate.
      destruct (rt_exec rt (page this)
                  (Click HomePage.addToCartButton
                     (timeout_opt config.TIMEOUTS.ELEMENT)) w2)
        as [[[]|e3] w3] eqn:Hpress; cbn; try discriminate.
      intros H. inversion H; subst. right.
      exists s1, w2, w3. repeat split; assumption.
    + intros H. inversion H; subst. left. exists s1. reflexivity.
Qed.

Lemma C7_witness :
  HomePage.addProductToCart Sim.rt Sim.this "shirt" (Sim.start Sim.shop_page)
  = (Ok tt,
     mkSt Sim.shop_page
       [ELog INFO "Adding product to cart: shirt" None;
        ELog INFO "Clicking product: shirt" None;
        ECall Sim.handle
          (Click (First (GetByText (mkRegExp "shirt" "i")))
             (timeout_opt config.TIMEOUTS.ELEMENT));
        EDelay config.DELAYS.MEDIUM_DELAY;
        ELog PASS "Clicked product: shirt" None;
        ECall Sim.handle
          (IsVisible HomePage.addToCartButton
             (timeout_opt config.TIMEOUTS.ELEMENT));
        ELog WARN "Add to cart button not found for: shirt" None]).
Proof.
  destruct (C7_addProductToCart_missing_control _ Sim.rt Sim.this "shirt"
              (Sim.start Sim.shop_page)) as [H _].
  rewrite (H (snd (HomePage.clickProduct Sim.rt Sim.this "shirt"
                     (mkSt Sim.shop_page
                        [ELog INFO "Adding product to cart: shirt" None])))).
  - reflexivity.
  - reflexivity.
  - intros Hv. vm_compute in Hv. discriminate Hv.
Defined.

(** ** C8: the authenticatedPage fixture *)

(** C8: the authenticatedPage fixture set up on a page handle first
    navigates to the login page (the navigation to the base URL is the
    first call made on the page).  If the login form is then not visible,
    no login is performed and the test body is run at once.  If it is
    visible, the login flow is run with the configured credentials and
    then verifyLoginSuccess: when verification returns false the fixture
    throws the setup error without running the test body, and when it
    returns true the test body is run.  In both successful paths the body
    receives the page handle, a HomePage and a LoginPage holding that same
    handle.  A failure of navigation or of the login flow is logged and
    thrown again. *)
Theorem C8_authenticatedPage_fixture :
  ∀ (W : Type) (rt : runtime W) (ref : positive)
    (use : fixtures.pageObjects → M W unit) (s : st W),
    let handle := JObj ref in
    let loginPage := mkPageObject handle in
    let homePage := mkPageObject handle in
    let bundle := fixtures.mkPageObjects handle homePage loginPage in
    let s0 :=
      mkSt (world s)
        (trace s
           ++ [ELog SECTION "SETTING UP AUTHENTICATED PAGE" None;
               ELog INFO "LoginPage initialized" None;
               ELog INFO "HomePage initialized" None]) in
    let note lvl msg (s' : st W) :=
      mkSt (world s') (trace s' ++ [ELog lvl msg None]) in
    let finish (r : result unit * st W) : result unit * st W :=
      match r with
      | (Ok _, s') =>
          (Ok tt, note INFO "Authenticated page fixture teardown completed" s')
      | (Throw e, s') =>
          (Throw e,
           mkSt (world s')
             (trace s'
                ++ [ELog ERROR "Failed to set up authenticated page" (Some e)]))
      end in
    let run := fixtures.authenticatedPage rt handle use s in
    (* the bundle is bound to the handle given *)
    (fixtures.po_page bundle = handle
     ∧ page (fixtures.po_homePage bundle) = handle
     ∧ page (fixtures.po_loginPage bundle) = handle)
    (* navigation comes first *)
    ∧ calls (trace (snd (LoginPage.navigateToLogin rt loginPage s0)))
      = (calls (trace s)
           ++ [ECall handle
                 (PageGoto (config.BASE_URL rt)
                    (<["timeout" := JNum config.TIMEOUTS.NAVIGATION]>
                       {[ "waitUntil" := JStr "networkidle" ]}))])%list
    ∧ (∀ e s1,
         LoginPage.navigateToLogin rt loginPage s0 = (Throw e, s1) →
         run = finish (Throw e, s1))
    (* the form is not visible: no login, the body runs at once *)
    ∧ (∀ s1 s2,
         LoginPage.navigateToLogin rt loginPage s0 = (Ok tt, s1) →
         LoginPage.isLoginFormDisplayed rt loginPage s1 = (Ok false, s2) →
         run
         = finish
             (use bundle
                (note INFO "Already authenticated - skipping login" s2)))
    (* the form is visible and the login flow fails *)
    ∧ (∀ e s1 s2 s3,
         LoginPage.navigateToLogin rt loginPage s0 = (Ok tt, s1) →
         LoginPage.isLoginFormDisplayed rt loginPage s1 = (Ok true, s2) →
         LoginPage.login rt loginPage
           (Some (config.CREDENTIALS.email rt))
           (Some (config.CREDENTIALS.password rt))
           (note INFO "Login form visible - performing login" s2)
         = (Throw e, s3) →
         run = finish (Throw e, s3))
    (* the form is visible, the login flow ran: verification decides *)
    ∧ (∀ s1 s2 s3 s4 (verified : bool),
         LoginPage.navigateToLogin rt loginPage s0 = (Ok tt, s1) →
         LoginPage.isLoginFormDisplayed rt loginPage s1 = (Ok true, s2) →
         LoginPage.login rt loginPage
           (Some (config.CREDENTIALS.email rt))
           (Some (config.CREDENTIALS.password rt))
           (note INFO "Login form visible - performing login" s2)
         = (Ok tt, s3) →
         LoginPage.verifyLoginSuccess rt loginPage s3 = (Ok verified, s4) →
         run
         = if verified
           then finish (use bundle (note PASS "Successfully authenticated" s4))
           else finish (Throw (Error "Login verification failed"), s4)).
Proof.
  intros W rt ref use s handle loginPage homePage bundle s0 note finish run.
  assert (Hrun : run
    = match LoginPage.navigateToLogin rt loginPage s0 with
      | (Throw e, s1) => finish (Throw e, s1)
      | (Ok _, s1) =>
          match LoginPage.isLoginFormDisplayed rt loginPage s1 with
          | (Throw e, s2) => finish (Throw e, s2)
          | (Ok false, s2) =>
              finish
                (use bundle
                   (note INFO "Already authenticated - skipping login" s2))
          | (Ok true, s2) =>
              match LoginPage.login rt loginPage
                      (Some (config.CREDENTIALS.email rt))
                      (Some (config.CREDENTIALS.password rt))
                      (note INFO "Login form visible - performing login" s2)
              with
              | (Throw e, s3) => finish (Throw e, s3)
              | (Ok _, s3) =>
                  match LoginPage.verifyLoginSuccess rt loginPage s3 with
                  | (Throw e, s4) => finish (Throw e, s4)
                  | (Ok true, s4) =>
                      finish
                        (use bundle (note PASS "Successfully authenticated" s4))
                  | (Ok false, s4) =>
                      finish (Throw (Error "Login verification failed"), s4)
                  end
              end
          end
      end).
  { subst run finish note s0 bundle homePage loginPage handle.
    unfold fixtures.authenticatedPage, LoginPage.constructor,
      HomePage.constructor, BasePage.constructor.
    unfold_monad. cbn. rewrite <- !app_assoc. cbn.
    destruct (LoginPage.navigateToLogin rt _ _) as [[[]|e1] s1];
      [|reflexivity].
    destruct (LoginPage.isLoginFormDisplayed rt _ s1) as [[[]|e2] s2];
      [| |reflexivity].
    - cbn.
      destruct (LoginPage.login rt _ _ _ _) as [[[]|e3] s3]; [|reflexivity].
      destruct (LoginPage.verifyLoginSuccess rt _ s3) as [[[]|e4] s4];
        cbn; try reflexivity.
      destruct (use _ _) as [[[]|e5] s5]; reflexivity.
    - cbn. destruct (use _ _) as [[[]|e5] s5]; reflexivity. }
  split; [repeat split|]. split.
  - clear Hrun. subst s0.
    unfold LoginPage.navigateToLogin, BasePage.goto. unfold_monad. cbn.
    split_exec; rewrite !calls_app; cbn;
      rewrite ?app_nil_r, <- ?app_assoc; reflexivity.
  - repeat split.
    + intros e s1 H1. rewrite Hrun, H1. reflexivity.
    + intros s1 s2 H1 H2. rewrite Hrun, H1, H2. reflexivity.
    + intros e s1 s2 s3 H1 H2 H3. rewrite Hrun, H1, H2, H3. reflexivity.
    + intros s1 s2 s3 s4 verified H1 H2 H3 H4.
      rewrite Hrun, H1, H2, H3, H4. destruct verified; reflexivity.
Qed.

Lemma C8_witness :
  fst (fixtures.authenticatedPage Sim.rt Sim.handle
         (fun po => logger.info "test body")
         (Sim.start Sim.login_form)) = Ok tt
  ∧ fst (fixtures.authenticatedPage Sim.rt Sim.handle
           (fun po => logger.info "test body")
           (Sim.start Sim.stuck_form))
    = Throw (Error "Login verification failed").
Proof.
  unfold Sim.handle. split.
  - destruct (C8_authenticatedPage_fixture _ Sim.rt 1%positive
                (fun po => logger.info "test body")
                (Sim.start Sim.login_form)) as (_ & _ & _ & _ & _ & H).
    set (s0 := mkSt Sim.login_form
                 [ELog SECTION "SETTING UP AUTHENTICATED PAGE" None;
                  ELog INFO "LoginPage initialized" None;
                  ELog INFO "HomePage initialized" None]).
    set (s1 := snd (LoginPage.navigateToLogin Sim.rt Sim.this s0)).
    set (s2 := snd (LoginPage.isLoginFormDisplayed Sim.rt Sim.this s1)).
    set (s3 := snd (LoginPage.login Sim.rt Sim.this
                      (Some (config.CREDENTIALS.email Sim.rt))
                      (Some (config.CREDENTIALS.password Sim.rt))
                      (mkSt (world s2)
                         (trace s2
                            ++ [ELog INFO "Login form visible - performing login"
                                  None])))).
    set (s4 := snd (LoginPage.verifyLoginSuccess Sim.rt Sim.this s3)).
    rewrite (H s1 s2 s3 s4 true); reflexivity.
  - destruct (C8_authenticatedPage_fixture _ Sim.rt 1%positive
                (fun po => logger.info "test body")
                (Sim.start Sim.stuck_form)) as (_ & _ & _ & _ & _ & H).
    set (s0 := mkSt Sim.stuck_form
                 [ELog SECTION "SETTING UP AUTHENTICATED PAGE" None;
                  ELog INFO "LoginPage initialized" None;
                  ELog INFO "HomePage initialized" None]).
    set (s1 := snd (LoginPage.navigateToLogin Sim.rt Sim.this s0)).
    set (s2 := snd (LoginPage.isLoginFormDisplayed Sim.rt Sim.this s1)).
    set (s3 := snd (LoginPage.login Sim.rt Sim.this
                      (Some (config.CREDENTIALS.email Sim.rt))
                      (Some (config.CREDENTIALS.password Sim.rt))
                      (mkSt (world s2)
                         (trace s2
                            ++ [ELog INFO "Login form visible - performing login"
                                  None])))).
    set (s4 := snd (LoginPage.verifyLoginSuccess Sim.rt Sim.this s3)).
    rewrite (H s1 s2 s3 s4 false); reflexivity.
Defined.

(** ** C9: a falsy timeout override *)

(** C9, as stated, fails for the click methods: called with the options
    [{ timeout: 0 }], clickByTestId, clickByText and clickByRole hand the
    click an options bag whose timeout is 0, not the ELEMENT default. *)
Lemma C9_counterexample :
  let zero : object := {[ "timeout" := JNum 0 ]} in
  calls (trace (snd (BasePage.clickByTestId Sim.rt Sim.this "buy" zero
                       (Sim.start Sim.blank))))
  = [ECall Sim.handle (Click (GetByTestId "buy") zero)]
  ∧ calls (trace (snd (BasePage.clickByText Sim.rt Sim.this "buy" zero
                         (Sim.start Sim.blank))))
    = [ECall Sim.handle (Click (First (GetByText (mkRegExp "buy" "i"))) zero)]
  ∧ calls (trace (snd (BasePage.clickByRole Sim.rt Sim.this "button"
                         (JStr "buy") zero (Sim.start Sim.blank))))
    = [ECall Sim.handle
         (Click (GetByRole "button" (RoleName (mkRegExp "buy" "i"))) zero)]
  ∧ Js.get zero "timeout" = JNum 0
  ∧ Js.get zero "timeout" ≠ JNum config.TIMEOUTS.ELEMENT.
Proof.
  cbv zeta. repeat split; try (vm_compute; reflexivity).
  intros H. vm_compute in H. discriminate H.
Qed.

Section Timeouts.
Context {W : Type} (rt : runtime W) (this : page_object).

(** What [{ timeout, ...options }] holds under the key [timeout]. *)
Lemma spread_timeout (options : object) (t : jsval) :
  Js.spread {[ "timeout" := t ]} options !! "timeout"
  = Some (match options !! "timeout" with Some v => v | None => t end).
Proof.
  unfold Js.spread. rewrite lookup_union, lookup_singleton_eq.
  destruct (options !! "timeout"); reflexivity.
Qed.

Lemma spread_other (options : object) (t : jsval) (k : string) :
  k ≠ "timeout" →
  Js.spread {[ "timeout" := t ]} options !! k = options !! k.
Proof.
  intros Hk. unfold Js.spread.
  rewrite lookup_union, lookup_singleton_ne by congruence.
  destruct (options !! k); reflexivity.
Qed.
End Timeouts.

(** C9 (amended): the effective timeout is computed as
    [options.timeout || default], so in BasePage.goto a timeout override of
    0, or any falsy value, is replaced by the NAVIGATION default in the
    options handed to the navigation.  The click methods clickByRole
    (whether its second argument is a name or an options object),
    clickByText and clickByTestId hand the click [{ timeout, ...options }]:
    its timeout is the caller's own timeout property whenever the options
    have one, 0 and other falsy values included, and the ELEMENT default
    only when the options have no timeout property; every other property
    of the options is passed through. *)
Theorem C9_timeout_override :
  ∀ (W : Type) (rt : runtime W) (this : page_object) (options : object)
    (s : st W),
    let requested := Js.get options "timeout" in
    let bag :=
      Js.spread
        {[ "timeout" := Js.or requested (JNum config.TIMEOUTS.ELEMENT) ]}
        options in
    (* goto *)
    (∀ url,
       calls (trace (snd (BasePage.goto rt this url options s)))
       = (calls (trace s)
            ++ [ECall (page this)
                  (PageGoto url
                     (<["timeout" :=
                          if truthy requested then requested
                          else JNum config.TIMEOUTS.NAVIGATION]>
                        {[ "waitUntil" := JStr "networkidle" ]}))])%list)
    (* the click methods *)
    ∧ (∀ testId,
         calls (trace (snd (BasePage.clickByTestId rt this testId options s)))
         = (calls (trace s)
              ++ [ECall (page this) (Click (GetByTestId testId) bag)])%list)
    ∧ (∀ text,
         rt_regexp_error rt text = None →
         calls (trace (snd (BasePage.clickByText rt this text options s)))
         = (calls (trace s)
              ++ [ECall (page this)
                    (Click (First (GetByText (mkRegExp text "i"))) bag)])%list)
    ∧ (∀ role name,
         rt_regexp_error rt name = None →
         calls (trace (snd (BasePage.clickByRole rt this role (JStr name)
                              options s)))
         = (calls (trace s)
              ++ [ECall (page this)
                    (Click (GetByRole role (RoleName (mkRegExp name "i")))
                       bag)])%list)
    ∧ (∀ role nameOrOptions,
         (∀ name, nameOrOptions ≠ JStr name) →
         calls (trace (snd (BasePage.clickByRole rt this role nameOrOptions
                              options s)))
         = (calls (trace s)
              ++ [ECall (page this)
                    (Click (GetByRole role (RoleRaw nameOrOptions))
                       bag)])%list)
    (* what the click receives *)
    ∧ bag !! "timeout"
      = Some (match options !! "timeout" with
              | Some own => own
              | None => JNum config.TIMEOUTS.ELEMENT
              end)
    ∧ (∀ k, k ≠ "timeout" → bag !! k = options !! k).
Proof.
  intros W rt this options s requested bag. subst requested bag.
  repeat split.
  - intros url. unfold BasePage.goto, Js.or. unfold_monad. cbn.
    split_exec; rewrite !calls_app; cbn;
      rewrite ?app_nil_r, <- ?app_assoc; reflexivity.
  - intros testId. unfold BasePage.clickByTestId. unfold_monad. cbn.
    split_exec; rewrite !calls_app; cbn;
      rewrite ?app_nil_r, <- ?app_assoc; reflexivity.
  - intros text Hre. unfold BasePage.clickByText. unfold_monad.
    rewrite Hre. cbn.
    split_exec; rewrite !calls_app; cbn;
      rewrite ?app_nil_r, <- ?app_assoc; reflexivity.
  - intros role name Hre. unfold BasePage.clickByRole. unfold_monad.
    rewrite Hre. cbn.
    split_exec; rewrite !calls_app; cbn;
      rewrite ?app_nil_r, <- ?app_assoc; reflexivity.
  - intros role nameOrOptions Hother.
    unfold BasePage.clickByRole. unfold_monad.
    destruct nameOrOptions;
      try (exfalso; eapply Hother; reflexivity); cbn;
      split_exec; rewrite !calls_app; cbn;
      rewrite ?app_nil_r, <- ?app_assoc; reflexivity.
  - rewrite spread_timeout. unfold Js.get, Js.or.
    destruct (options !! "timeout"); reflexivity.
  - intros k Hk. apply spread_other, Hk.
Qed.

Lemma C9_witness :
  calls (trace (snd (BasePage.clickByText Sim.rt Sim.this "shirt"
                       {[ "timeout" := JNum 0 ]} (Sim.start Sim.shop_page))))
  = [ECall Sim.handle
       (Click (First (GetByText (mkRegExp "shirt" "i")))
          {[ "timeout" := JNum 0 ]})]
  ∧ calls (trace (snd (BasePage.goto Sim.rt Sim.this "https://shop.test/"
                         {[ "timeout" := JNum 0 ]} (Sim.start Sim.blank))))
    = [ECall Sim.handle
         (PageGoto "https://shop.test/"
            (<["timeout" := JNum config.TIMEOUTS.NAVIGATION]>
               {[ "waitUntil" := JStr "networkidle" ]}))].
Proof.
  destruct (C9_timeout_override _ Sim.rt Sim.this {[ "timeout" := JNum 0 ]}
              (Sim.start Sim.shop_page)) as (_ & _ & Ht & _).
  destruct (C9_timeout_override _ Sim.rt Sim.this {[ "timeout" := JNum 0 ]}
              (Sim.start Sim.blank)) as (Hg & _).
  split.
  - rewrite (Ht "shirt" eq_refl). vm_compute. reflexivity.
  - rewrite (Hg "https://shop.test/"). vm_compute. reflexivity.
Defined.

(** * Further properties of the page-object layer *)

(** ** Fixtures *)

(** X1: when the navigation of the authenticatedPage fixture is rejected
    by the page, the fixture throws that same error, the test body is not
    run, nothing else is asked of the page, and the error is logged once
    by each of the three layers it crosses (goto, navigateToLogin, the
    fixture). *)
Theorem X1_authenticatedPage_navigation_failure :
  ∀ (W : Type) (rt : runtime W) (ref : positive)
    (use : fixtures.pageObjects → M W unit) (s : st W) (e : error) (w' : W),
    let handle := JObj ref in
    let url := config.BASE_URL rt in
    let nav :=
      PageGoto url
        (<["timeout" := JNum config.TIMEOUTS.NAVIGATION]>
           {[ "waitUntil" := JStr "networkidle" ]}) in
    rt_exec rt handle nav (world s) = (Throw e, w') →
    fixtures.authenticatedPage rt handle use s
    = (Throw e,
       mkSt w'
         (trace s
            ++ [ELog SECTION "SETTING UP AUTHENTICATED PAGE" None;
                ELog INFO "LoginPage initialized" None;
                ELog INFO "HomePage initialized" None;
                ELog INFO ("Navigating to: " +:+ url) None;
                ECall handle nav;
                ELog ERROR ("Failed to navigate to " +:+ url) (Some e);
                ELog ERROR "Failed to navigate to login page" (Some e);
                ELog ERROR "Failed to set up authenticated page" (Some e)])).
Proof.
  intros W rt ref use s e w' handle url nav H. subst handle url nav.
  unfold fixtures.authenticatedPage, LoginPage.constructor,
    HomePage.constructor, BasePage.constructor, LoginPage.navigateToLogin,
    BasePage.goto.
  unfold_monad. cbn [world trace truthy negb page].
  change (Js.or (Js.get ∅ "timeout") (JNum config.TIMEOUTS.NAVIGATION))
    with (JNum config.TIMEOUTS.NAVIGATION).
  rewrite H. cbn.
  rewrite <- !app_assoc. reflexivity.
Qed.

Lemma X1_witness :
  fst (fixtures.authenticatedPage Sim.closed_rt Sim.handle
         (fun _ => logger.info "test body") (Sim.start Sim.login_form))
  = Throw Sim.ClosedError.
Proof.
  unfold Sim.handle.
  rewrite (X1_authenticatedPage_navigation_failure _ Sim.closed_rt 1%positive
             (fun _ => logger.info "test body") (Sim.start Sim.login_form)
             Sim.ClosedError Sim.login_form eq_refl).
  reflexivity.
Defined.

(** X2: set up on a missing page handle (any falsy value), the
    authenticatedPage fixture throws the initialization error of the page
    object, logs it as a setup failure, asks nothing of the page and does
    not run the test body. *)
Theorem X2_authenticatedPage_without_handle :
  ∀ (W : Type) (rt : runtime W) (handle : jsval)
    (use : fixtures.pageObjects → M W unit) (s : st W),
    truthy handle = false →
    let init_error :=
      Error "Page object is required to initialize BasePage" in
    fixtures.authenticatedPage rt handle use s
    = (Throw init_error,
       mkSt (world s)
         (trace s
            ++ [ELog SECTION "SETTING UP AUTHENTICATED PAGE" None;
                ELog ERROR "Failed to set up authenticated page"
                  (Some init_error)])).
Proof.
  intros W rt handle use s H init_error. subst init_error.
  unfold fixtures.authenticatedPage, LoginPage.constructor,
    BasePage.constructor.
  unfold_monad. rewrite H. cbn.
  rewrite <- !app_assoc. reflexivity.
Qed.

Lemma X2_witness :
  fst (fixtures.authenticatedPage Sim.rt JUndefined
         (fun _ => logger.info "test body") (Sim.start Sim.login_form))
  = Throw (Error "Page object is required to initialize BasePage").
Proof.
  rewrite (X2_authenticatedPage_without_handle _ Sim.rt JUndefined
             (fun _ => logger.info "test body") (Sim.start Sim.login_form)
             eq_refl).
  reflexivity.
Defined.

(** X3: the pages fixture builds a BasePage, a LoginPage and a HomePage
    on the one handle it is given and runs the test body on them; the
    outcome of the fixture is the outcome of the body, with no log line
    added after it.  On a falsy handle it throws the initialization error
    before the body is run and before any page object is announced. *)
Theorem X3_pages_fixture :
  ∀ (W : Type) (handle : jsval) (use : fixtures.allPages → M W unit)
    (s : st W),
    let po := mkPageObject handle in
    let setup := ELog DEBUG "Setting up page objects fixture" None in
    (truthy handle = true →
     fixtures.pages handle use s
     = use (fixtures.mkAllPages po po po)
         (mkSt (world s)
            (trace s
               ++ [setup;
                   ELog INFO "LoginPage initialized" None;
                   ELog INFO "HomePage initialized" None])))
    ∧ (truthy handle = false →
       fixtures.pages handle use s
       = (Throw (Error "Page object is required to initialize BasePage"),
          mkSt (world s) (trace s ++ [setup]))).
Proof.
  intros W handle use s po setup. subst po setup.
  unfold fixtures.pages, LoginPage.constructor, HomePage.constructor,
    BasePage.constructor.
  unfold_monad. split; intros H; rewrite H; cbn.
  - rewrite <- !app_assoc. cbn.
    destruct (use _ _) as [[u|e] s']; reflexivity.
  - reflexivity.
Qed.

Lemma X3_witness :
  fixtures.pages Sim.handle
    (fun po => LoginPage.enterEmail Sim.rt (fixtures.ap_loginPage po) "a@b.c")
    (Sim.start Sim.blank)
  = (Throw Sim.TimeoutError,
     mkSt Sim.blank
       [ELog DEBUG "Setting up page objects fixture" None;
        ELog INFO "LoginPage initialized" None;
        ELog INFO "HomePage initialized" None;
        ECall Sim.handle
          (Fill LoginPage.getEmailField "a@b.c"
             (timeout_opt config.TIMEOUTS.ELEMENT));
        ELog ERROR "Failed to enter email" (Some Sim.TimeoutError)])
  ∧ fst (fixtures.pages JNull
           (fun po => LoginPage.enterEmail Sim.rt (fixtures.ap_loginPage po)
                        "a@b.c")
           (Sim.start Sim.blank))
    = Throw (Error "Page object is required to initialize BasePage").
Proof.
  split.
  - destruct (X3_pages_fixture _ Sim.handle
                (fun po =>
                   LoginPage.enterEmail Sim.rt (fixtures.ap_loginPage po)
                     "a@b.c")
                (Sim.start Sim.blank)) as [H _].
    rewrite (H eq_refl). reflexivity.
  - destruct (X3_pages_fixture _ JNull
                (fun po =>
                   LoginPage.enterEmail Sim.rt (fixtures.ap_loginPage po)
                     "a@b.c")
                (Sim.start Sim.blank)) as [_ H].
    rewrite (H eq_refl). reflexivity.
Defined.

(** ** LoginPage *)

Section Login_probes.
Context {W : Type} (rt : runtime W) (this : page_object).

Lemma getErrorMessage_total (s : st W) :
  ∃ m s', LoginPage.getErrorMessage rt this s = (Ok m, s').
Proof.
  unfold LoginPage.getErrorMessage. unfold_monad.
  split_exec; [match goal with b : bool |- _ => destruct b end; cbn;
               [split_exec|] |]; eexists; eexists; reflexivity.
Qed.

(** The whole of [isLoginFormDisplayed]: three queries, each on the world
    the previous one left, then one log line. *)
Lemma isLoginFormDisplayed_run (s : st W) :
  let q l := IsVisible l (timeout_opt config.TIMEOUTS.SHORT) in
  let a1 := rt_exec rt (page this) (q LoginPage.getEmailField) (world s) in
  let a2 := rt_exec rt (page this) (q LoginPage.getPasswordField) (snd a1) in
  let a3 := rt_exec rt (page this) (q LoginPage.getLoginButton) (snd a2) in
  let shown :=
    answered_yes (fst a1) && answered_yes (fst a2) && answered_yes (fst a3) in
  LoginPage.isLoginFormDisplayed rt this s
  = (Ok shown,
     mkSt (snd a3)
       (trace s
          ++ [ECall (page this) (q LoginPage.getEmailField);
              ECall (page this) (q LoginPage.getPasswordField);
              ECall (page this) (q LoginPage.getLoginButton);
              if shown
              then ELog PASS "Login form is displayed" None
              else ELog WARN "Login form is NOT fully displayed" None])).
Proof.
  cbv zeta. unfold LoginPage.isLoginFormDisplayed. unfold_monad.
  cbn [world trace].
  destruct (rt_exec rt (page this)
              (IsVisible LoginPage.getEmailField _) (world s))
    as [[[]|e1] w1]; cbn [fst snd world trace answered_yes andb];
    destruct (rt_exec rt (page this)
                (IsVisible LoginPage.getPasswordField _) w1)
      as [[[]|e2] w2]; cbn [fst snd world trace answered_yes andb];
    destruct (rt_exec rt (page this)
                (IsVisible LoginPage.getLoginButton _) w2)
      as [[[]|e3] w3]; cbn [fst snd world trace answered_yes andb];
    rewrite <- !app_assoc; reflexivity.
Qed.

(** The whole of [verifyLoginSuccess]: one query, negated. *)
Lemma verifyLoginSuccess_run (s : st W) :
  let q := IsVisible LoginPage.getEmailField
             (timeout_opt config.TIMEOUTS.SHORT) in
  let a := rt_exec rt (page this) q (world s) in
  LoginPage.verifyLoginSuccess rt this s
  = (Ok (negb (answered_yes (fst a))),
     mkSt (snd a)
       (trace s
          ++ [ECall (page this) q;
              if answered_yes (fst a)
              then ELog WARN "Login verification failed - still on login page"
                     None
              else ELog PASS
                     "Successfully verified login - login form is no longer visible"
                     None])).
Proof.
  cbv zeta. unfold LoginPage.verifyLoginSuccess. unfold_monad.
  cbn [world trace].
  destruct (rt_exec rt (page this)
              (IsVisible LoginPage.getEmailField _) (world s))
    as [[[]|e1] w1]; cbn [fst snd world trace answered_yes negb];
    rewrite <- !app_assoc; reflexivity.
Qed.
End Login_probes.

(** X4: LoginPage.attemptInvalidLogin raises exactly when its login
    raises.  If login throws, that error is logged and thrown again and
    the error message is never looked for.  If login succeeds, the method
    waits the settle delay and returns whatever getErrorMessage returns on
    the page as it then is, null included; it makes no call of its own
    beyond those of login and getErrorMessage. *)
Theorem X4_attemptInvalidLogin_raises_with_login :
  ∀ (W : Type) (rt : runtime W) (this : page_object) (email password : string)
    (s : st W),
    let s0 :=
      mkSt (world s)
        (trace s
           ++ [ELog INFO "Attempting login with invalid credentials" None]) in
    let run :=
      LoginPage.attemptInvalidLogin rt this (Some email) (Some password) s in
    (∀ e s1,
       LoginPage.login rt this (Some email) (Some password) s0 = (Throw e, s1) →
       run
       = (Throw e,
          mkSt (world s1)
            (trace s1
               ++ [ELog ERROR "Failed during invalid login attempt" (Some e)])))
    ∧ (∀ s1,
         LoginPage.login rt this (Some email) (Some password) s0 = (Ok tt, s1) →
         let s2 :=
           mkSt (rt_elapse rt config.DELAYS.MEDIUM_DELAY (world s1))
             (trace s1 ++ [EDelay config.DELAYS.MEDIUM_DELAY]) in
         let probe := LoginPage.getErrorMessage rt this s2 in
         (∃ m, fst run = Ok m)
         ∧ fst run = fst probe
         ∧ world (snd run) = world (snd probe)
         ∧ calls (trace (snd run)) = calls (trace (snd probe))).
Proof.
  intros W rt this email password s s0 run. subst run.
  unfold LoginPage.attemptInvalidLogin. unfold_monad. cbn. fold s0.
  split.
  - intros e s1 H. rewrite H. reflexivity.
  - intros s1 H. rewrite H. cbn.
    match goal with
    | |- context [LoginPage.getErrorMessage rt this ?x] =>
        destruct (getErrorMessage_total rt this x) as (m & s3 & Hm)
    end.
    rewrite Hm. cbn.
    destruct (LoginPage.message_truthy m); cbn;
      (split; [exists m; reflexivity|]);
      repeat split; rewrite calls_app; cbn; apply app_nil_r.
Qed.

Lemma X4_witness :
  fst (LoginPage.attemptInvalidLogin Sim.rt Sim.this (Some "x@y.z")
         (Some "nope") (Sim.start Sim.email_only))
  = Throw Sim.TimeoutError
  ∧ fst (LoginPage.attemptInvalidLogin Sim.rt Sim.this (Some "x@y.z")
           (Some "nope") (Sim.start Sim.stuck_form))
    = Ok (Some " ").
Proof.
  split.
  - destruct (X4_attemptInvalidLogin_raises_with_login _ Sim.rt Sim.this
                "x@y.z" "nope" (Sim.start Sim.email_only)) as [H _].
    rewrite (H Sim.TimeoutError
               (snd (LoginPage.login Sim.rt Sim.this (Some "x@y.z")
                       (Some "nope")
                       (mkSt Sim.email_only
                          [ELog INFO "Attempting login with invalid credentials"
                             None]))));
      reflexivity.
  - destruct (X4_attemptInvalidLogin_raises_with_login _ Sim.rt Sim.this
                "x@y.z" "nope" (Sim.start Sim.stuck_form)) as [_ H].
    destruct (H (snd (LoginPage.login Sim.rt Sim.this (Some "x@y.z")
                        (Some "nope")
                        (mkSt Sim.stuck_form
                           [ELog INFO
                              "Attempting login with invalid credentials"
                              None]))) eq_refl) as (_ & Hrun & _).
    rewrite Hrun. reflexivity.
Defined.

(** X5: LoginPage.isLoginFormDisplayed always asks the page three
    visibility questions, in the order email field, password field, login
    button, each with the short timeout and whatever the earlier answers
    were; it returns true exactly when all three answered yes, a failed
    question counting as no. *)
Theorem X5_isLoginFormDisplayed_three_queries :
  ∀ (W : Type) (rt : runtime W) (this : page_object) (s : st W),
    let q l := IsVisible l (timeout_opt config.TIMEOUTS.SHORT) in
    let a1 := rt_exec rt (page this) (q LoginPage.getEmailField) (world s) in
    let a2 := rt_exec rt (page this) (q LoginPage.getPasswordField) (snd a1) in
    let a3 := rt_exec rt (page this) (q LoginPage.getLoginButton) (snd a2) in
    let run := LoginPage.isLoginFormDisplayed rt this s in
    fst run
    = Ok (answered_yes (fst a1) && answered_yes (fst a2)
          && answered_yes (fst a3))
    ∧ world (snd run) = snd a3
    ∧ calls (trace (snd run))
      = (calls (trace s)
           ++ [ECall (page this) (q LoginPage.getEmailField);
               ECall (page this) (q LoginPage.getPasswordField);
               ECall (page this) (q LoginPage.getLoginButton)])%list.
Proof.
  intros W rt this s q a1 a2 a3 run. subst run.
  rewrite isLoginFormDisplayed_run. cbn [fst snd world trace].
  repeat split. rewrite calls_app. f_equal.
  match goal with
  | |- context [if ?b then _ else _] => destruct b
  end; reflexivity.
Qed.

(** X6: LoginPage.verifyLoginSuccess asks one question, whether the
    email field is visible, and returns the negation of the answer; a
    question that fails counts as "not visible", so on a page that cannot
    be queried the method reports a successful login. *)
Theorem X6_verifyLoginSuccess_negates_one_query :
  ∀ (W : Type) (rt : runtime W) (this : page_object) (s : st W),
    let q := IsVisible LoginPage.getEmailField
               (timeout_opt config.TIMEOUTS.SHORT) in
    let run := LoginPage.verifyLoginSuccess rt this s in
    fst run = Ok (negb (answered_yes (fst (rt_exec rt (page this) q (world s)))))
    ∧ calls (trace (snd run)) = (calls (trace s) ++ [ECall (page this) q])%list
    ∧ (∀ e w',
         rt_exec rt (page this) q (world s) = (Throw e, w') →
         fst run = Ok true).
Proof.
  intros W rt this s q run. subst run.
  rewrite verifyLoginSuccess_run. cbn [fst snd world trace]. fold q.
  repeat split.
  - rewrite calls_app. f_equal.
    match goal with
    | |- context [if ?b then _ else _] => destruct b
    end; reflexivity.
  - intros e w' H. rewrite H. reflexivity.
Qed.

Lemma X6_witness :
  fst (LoginPage.verifyLoginSuccess Sim.closed_rt Sim.this
         (Sim.start Sim.login_form)) = Ok true.
Proof.
  destruct (X6_verifyLoginSuccess_negates_one_query _ Sim.closed_rt Sim.this
              (Sim.start Sim.login_form)) as (_ & _ & H).
  apply (H Sim.ClosedError Sim.login_form). reflexivity.
Defined.

(** X7: on a page whose visibility questions do not change it, a login
    form that isLoginFormDisplayed reports as displayed is never reported
    by verifyLoginSuccess as a successful login: the two methods cannot
    both return true on the same page. *)
Theorem X7_displayed_form_is_not_a_verified_login :
  ∀ (W : Type) (rt : runtime W) (this : page_object) (s s' : st W),
    (∀ l o w, snd (rt_exec rt (page this) (IsVisible l o) w) = w) →
    world s' = world s →
    fst (LoginPage.isLoginFormDisplayed rt this s) = Ok true →
    fst (LoginPage.verifyLoginSuccess rt this s') = Ok false.
Proof.
  intros W rt this s s' Hpure Hw.
  rewrite isLoginFormDisplayed_run, verifyLoginSuccess_run.
  cbn [fst]. rewrite Hw. intros H. f_equal.
  destruct (answered_yes
              (fst (rt_exec rt (page this)
                      (IsVisible LoginPage.getEmailField
                         (timeout_opt config.TIMEOUTS.SHORT)) (world s))));
    [reflexivity|].
  cbn in H. discriminate H.
Qed.

Lemma X7_witness :
  fst (LoginPage.verifyLoginSuccess Sim.rt Sim.this (Sim.start Sim.login_form))
  = Ok false.
Proof.
  apply (X7_displayed_form_is_not_a_verified_login _ Sim.rt Sim.this
           (Sim.start Sim.login_form) (Sim.start Sim.login_form)).
  - intros l o w. reflexivity.
  - reflexivity.
  - reflexivity.
Defined.

(** ** HomePage *)

(** X8: HomePage.searchProduct fills the search field first and stops
    there, with the fill's error, when the fill fails.  Otherwise it asks
    once whether the search button is visible and then submits exactly
    once: by a click on the button when the answer is yes, by pressing
    Enter in the field when the answer is no or the question fails.  It
    throws the error of the submit when that fails, and waits the settle
    delay only after a successful submit. *)
Theorem X8_searchProduct_submits_once :
  ∀ (W : Type) (rt : runtime W) (this : page_object) (name : string)
    (s : st W),
    let fill :=
      Fill HomePage.getSearchInput name (timeout_opt config.TIMEOUTS.ELEMENT) in
    let probe :=
      IsVisible HomePage.getSearchButton (timeout_opt config.TIMEOUTS.SHORT) in
    let click :=
      Click HomePage.getSearchButton (timeout_opt config.TIMEOUTS.ELEMENT) in
    let enter := Press HomePage.getSearchInput "Enter" in
    let run := HomePage.searchProduct rt this name s in
    (∀ e w1,
       rt_exec rt (page this) fill (world s) = (Throw e, w1) →
       fst run = Throw e
       ∧ world (snd run) = w1
       ∧ calls (trace (snd run))
         = (calls (trace s) ++ [ECall (page this) fill])%list)
    ∧ (∀ w1,
         rt_exec rt (page this) fill (world s) = (Ok tt, w1) →
         let a := rt_exec rt (page this) probe w1 in
         let submit := if answered_yes (fst a) then click else enter in
         let b := rt_exec rt (page this) submit (snd a) in
         match fst b with
         | Ok _ =>
             fst run = Ok tt
             ∧ world (snd run)
               = rt_elapse rt config.DELAYS.MEDIUM_DELAY (snd b)
             ∧ calls (trace (snd run))
               = (calls (trace s)
                    ++ [ECall (page this) fill; ECall (page this) probe;
                        ECall (page this) submit;
                        EDelay config.DELAYS.MEDIUM_DELAY])%list
         | Throw e =>
             fst run = Throw e
             ∧ world (snd run) = snd b
             ∧ calls (trace (snd run))
               = (calls (trace s)
                    ++ [ECall (page this) fill; ECall (page this) probe;
                        ECall (page this) submit])%list
         end).
Proof.
  intros W rt this name s fill probe click enter run.
  subst run fill probe click enter.
  unfold HomePage.searchProduct. unfold_monad. cbn [world trace].
  split.
  - intros e w1 H. rewrite H. cbn.
    rewrite !calls_app. cbn. rewrite ?app_nil_r. repeat split.
  - intros w1 H. rewrite H. cbn [world trace fst snd].
    destruct (rt_exec rt (page this)
                (IsVisible HomePage.getSearchButton _) w1)
      as [[[]|e1] w2]; cbn [fst snd world trace answered_yes];
      match goal with
      | |- context [rt_exec rt (page this) ?o w2] =>
          destruct (rt_exec rt (page this) o w2) as [[[]|e2] w3]
      end; cbn; rewrite !calls_app; cbn;
      rewrite ?app_nil_r, <- ?app_assoc; repeat split.
Qed.

Lemma X8_witness :
  calls (trace (snd (HomePage.searchProduct Sim.rt Sim.this "shirt"
                       (Sim.start Sim.catalogue))))
  = [ECall Sim.handle
       (Fill HomePage.getSearchInput "shirt"
          (timeout_opt config.TIMEOUTS.ELEMENT));
     ECall Sim.handle
       (IsVisible HomePage.getSearchButton
          (timeout_opt config.TIMEOUTS.SHORT));
     ECall Sim.handle (Press HomePage.getSearchInput "Enter");
     EDelay config.DELAYS.MEDIUM_DELAY]
  ∧ fst (HomePage.searchProduct Sim.rt Sim.this "shirt" (Sim.start Sim.blank))
    = Throw Sim.TimeoutError.
Proof.
  split.
  - destruct (X8_searchProduct_submits_once _ Sim.rt Sim.this "shirt"
                (Sim.start Sim.catalogue)) as [_ H].
    specialize (H (Sim.mkDom (Sim.elements Sim.catalogue)
                     [(HomePage.getSearchInput, "shirt")] []) eq_refl).
    cbn in H. destruct H as (_ & _ & H). exact H.
  - destruct (X8_searchProduct_submits_once _ Sim.rt Sim.this "shirt"
                (Sim.start Sim.blank)) as [H _].
    destruct (H Sim.TimeoutError Sim.blank eq_refl) as (H1 & _). exact H1.
Defined.

(** X9: HomePage.sortProducts is best effort.  When the sort control is
    not visible (the question answers no or fails) it returns normally
    after that single question.  It raises only in three ways, each after
    the control was reported visible: the click on the control fails; the
    sort option is not a well-formed pattern, which is found out only
    after the control has been clicked; or the option is reported visible
    and the click on it fails. *)
Theorem X9_sortProducts_best_effort :
  ∀ (W : Type) (rt : runtime W) (this : page_object) (sortOption : string)
    (s : st W),
    let probe :=
      IsVisible HomePage.getFilterButton
        (timeout_opt config.TIMEOUTS.ELEMENT) in
    let open :=
      Click HomePage.getFilterButton (timeout_opt config.TIMEOUTS.ELEMENT) in
    let option := GetByRole "option" (RoleName (mkRegExp sortOption "i")) in
    let run := HomePage.sortProducts rt this sortOption s in
    (answered_yes (fst (rt_exec rt (page this) probe (world s))) = false →
     fst run = Ok tt
     ∧ world (snd run) = snd (rt_exec rt (page this) probe (world s))
     ∧ calls (trace (snd run))
       = (calls (trace s) ++ [ECall (page this) probe])%list)
    ∧ (∀ e s',
         run = (Throw e, s') →
         ∃ w1,
           rt_exec rt (page this) probe (world s) = (Ok true, w1)
           ∧ ((∃ w2, rt_exec rt (page this) open w1 = (Throw e, w2))
              ∨ (∃ w2,
                   rt_exec rt (page this) open w1 = (Ok tt, w2)
                   ∧ (rt_regexp_error rt sortOption = Some e
                      ∨ (∃ w3 w4,
                           rt_regexp_error rt sortOption = None
                           ∧ rt_exec rt (page this)
                               (IsVisible option
                                  (timeout_opt config.TIMEOUTS.SHORT))
                               (rt_elapse rt config.DELAYS.SHORT_DELAY w2)
                             = (Ok true, w3)
                           ∧ rt_exec rt (page this)
                               (Click option
                                  (timeout_opt config.TIMEOUTS.ELEMENT)) w3
                             = (Throw e, w4)))))).
Proof.
  intros W rt this sortOption s probe open option run.
  subst run probe open option.
  unfold HomePage.sortProducts. unfold_monad. cbn [world trace].
  split.
  - destruct (rt_exec rt (page this)
                (IsVisible HomePage.getFilterButton _) (world s))
      as [[[]|e1] w1]; cbn; try discriminate; intros _;
      rewrite !calls_app; cbn; rewrite ?app_nil_r; repeat split.
  - intros e s'.
    destruct (rt_exec rt (page this)
                (IsVisible HomePage.getFilterButton _) (world s))
      as [[[]|e1] w1]; cbn; try discriminate.
    intros H. exists w1. split; [reflexivity|].
    destruct (rt_exec rt (page this)
                (Click HomePage.getFilterButton _) w1)
      as [[[]|e2] w2]; cbn in H.
    + right. exists w2. split; [reflexivity|].
      destruct (rt_regexp_error rt sortOption) as [e3|]; cbn in H.
      * left. inversion H. reflexivity.
      * right.
        destruct (rt_exec rt (page this) (IsVisible _ _) _)
          as [[[]|e4] w3] eqn:Hopt; cbn in H; try discriminate H.
        destruct (rt_exec rt (page this) (Click _ _) w3)
          as [[[]|e5] w4] eqn:Hclick; cbn in H; try discriminate H.
        inversion H; subst. exists w3, w4. repeat split; assumption.
    + left. inversion H; subst. exists w2. reflexivity.
Qed.

Lemma X9_witness :
  fst (HomePage.sortProducts Sim.rt Sim.this "price" (Sim.start Sim.blank))
  = Ok tt
  ∧ calls (trace (snd (HomePage.sortProducts Sim.rt Sim.this "price"
                         (Sim.start Sim.blank))))
    = [ECall Sim.handle
         (IsVisible HomePage.getFilterButton
            (timeout_opt config.TIMEOUTS.ELEMENT))].
Proof.
  destruct (X9_sortProducts_best_effort _ Sim.rt Sim.this "price"
              (Sim.start Sim.blank)) as [H _].
  destruct (H eq_refl) as (H1 & _ & H3). split; [exact H1 | exact H3].
Defined.

(** X10: the filter name given to HomePage.applyFilter appears in log
    lines only: two calls that differ in the name alone return the same
    outcome, leave the page in the same state and make the same calls;
    the control acted on is found by the filter value. *)
Theorem X10_applyFilter_ignores_filter_name :
  ∀ (W : Type) (rt : runtime W) (this : page_object)
    (name1 name2 value : string) (s : st W),
    let run1 := HomePage.applyFilter rt this name1 value s in
    let run2 := HomePage.applyFilter rt this name2 value s in
    fst run1 = fst run2
    ∧ world (snd run1) = world (snd run2)
    ∧ calls (trace (snd run1)) = calls (trace (snd run2)).
Proof.
  intros W rt this name1 name2 value s run1 run2. subst run1 run2.
  unfold HomePage.applyFilter. unfold_monad. cbn [world trace].
  destruct (rt_regexp_error rt value) as [e0|]; cbn;
    [rewrite !calls_app; cbn; repeat split|].
  destruct (rt_exec rt (page this) (IsVisible _ _) (world s))
    as [[[]|e1] w1]; cbn;
    try (rewrite !calls_app; cbn; repeat split; fail).
  destruct (rt_exec rt (page this) (Click _ _) w1) as [[[]|e2] w2]; cbn;
    rewrite !calls_app; cbn; repeat split.
Qed.

(** X11: HomePage.clearAllFilters raises an error exactly when the clear
    control is reported visible and the click on it fails with that error;
    HomePage.applyFilter raises an error exactly when the filter value is
    not a well-formed pattern (that error, before the page is asked
    anything) or the filter control is reported visible and the click on
    it fails with that error.  In every other case, an absent control
    included, both return normally. *)
Theorem X11_filters_raise_exactly_when :
  ∀ (W : Type) (rt : runtime W) (this : page_object) (name value : string)
    (s : st W) (e : error),
    let opts := timeout_opt config.TIMEOUTS.ELEMENT in
    let control := GetByLabel (mkRegExp value "i") in
    ((∃ s', HomePage.clearAllFilters rt this s = (Throw e, s'))
     ↔ (∃ w1 w2,
          rt_exec rt (page this) (IsVisible HomePage.clearButton opts) (world s)
          = (Ok true, w1)
          ∧ rt_exec rt (page this) (Click HomePage.clearButton opts) w1
            = (Throw e, w2)))
    ∧ ((∃ s', HomePage.applyFilter rt this name value s = (Throw e, s'))
       ↔ (rt_regexp_error rt value = Some e
          ∨ (∃ w1 w2,
               rt_regexp_error rt value = None
               ∧ rt_exec rt (page this) (IsVisible control opts) (world s)
                 = (Ok true, w1)
               ∧ rt_exec rt (page this) (Click control opts) w1
                 = (Throw e, w2)))).
Proof.
  intros W rt this name value s e opts control. subst opts control. split.
  - unfold HomePage.clearAllFilters. unfold_monad. cbn [world trace]. split.
    + intros (s' & H).
      destruct (rt_exec rt (page this) (IsVisible _ _) (world s))
        as [[[]|e1] w1]; cbn in H; try discriminate H.
      destruct (rt_exec rt (page this) (Click _ _) w1)
        as [[[]|e2] w2] eqn:Hc; cbn in H; try discriminate H.
      inversion H; subst. exists w1, w2. split; [reflexivity | exact Hc].
    + intros (w1 & w2 & Hp & Hc). rewrite Hp. cbn. rewrite Hc. cbn.
      eexists. reflexivity.
  - unfold HomePage.applyFilter. unfold_monad. cbn [world trace]. split.
    + intros (s' & H).
      destruct (rt_regexp_error rt value) as [e0|]; cbn in H.
      * left. inversion H. reflexivity.
      * right.
        destruct (rt_exec rt (page this) (IsVisible _ _) (world s))
          as [[[]|e1] w1]; cbn in H; try discriminate H.
        destruct (rt_exec rt (page this) (Click _ _) w1)
          as [[[]|e2] w2] eqn:Hc; cbn in H; try discriminate H.
        inversion H; subst. exists w1, w2. repeat split. exact Hc.
    + intros [Hre | (w1 & w2 & Hre & Hp & Hc)]; rewrite Hre; cbn.
      * eexists. reflexivity.
      * rewrite Hp. cbn. rewrite Hc. cbn. eexists. reflexivity.
Qed.

Lemma X11_witness :
  ∃ s', HomePage.applyFilter Sim.rt Sim.this "size" "(" (Sim.start Sim.blank)
        = (Throw Sim.SyntaxError, s').
Proof.
  destruct (X11_filters_raise_exactly_when _ Sim.rt Sim.this "size" "("
              (Sim.start Sim.blank) Sim.SyntaxError) as [_ [_ H]].
  apply H. left. reflexivity.
Defined.

Section Digits.

(** [is_digit] holds of the ten decimal digits and of nothing else. *)
Lemma is_digit_decimal (c : ascii) :
  HomePage.is_digit c
  = existsb (Ascii.eqb c)
      ["0"; "1"; "2"; "3"; "4"; "5"; "6"; "7"; "8"; "9"]%char.
Proof. destruct c as [[] [] [] [] [] [] [] []]; reflexivity. Qed.

(** [digits_of] keeps the digits of a text, in their order. *)
Lemma digits_of_filter (s : string) :
  list_ascii_of_string (HomePage.digits_of s)
  = List.filter HomePage.is_digit (list_ascii_of_string s).
Proof.
  induction s as [|c s IH]; [reflexivity|].
  cbn [HomePage.digits_of list_ascii_of_string List.filter].
  destruct (HomePage.is_digit c);
    [cbn [list_ascii_of_string]; rewrite IH; reflexivity | exact IH].
Qed.

Lemma filter_all {A} (f : A → bool) (l : list A) :
  forallb f l = true → List.filter f l = l.
Proof.
  induction l as [|a l IH]; [reflexivity|].
  cbn [forallb List.filter]. intros H.
  apply andb_prop in H as [Ha Hl]. rewrite Ha, (IH Hl). reflexivity.
Qed.

Lemma filter_forallb {A} (f : A → bool) (l : list A) :
  forallb f (List.filter f l) = true.
Proof.
  induction l as [|a l IH]; [reflexivity|].
  cbn [List.filter]. destruct (f a) eqn:Ha; [|exact IH].
  cbn [forallb]. rewrite Ha, IH. reflexivity.
Qed.

Lemma list_ascii_nil (s : string) : list_ascii_of_string s = [] → s = "".
Proof. destruct s; [reflexivity | discriminate]. Qed.

End Digits.

(** X12: the string that HomePage.getCartItemCount hands to parseInt is
    made of the decimal digits 0 to 9 of the badge text, all of them and in
    their order, every other character dropped; when the text is null or
    holds no digit it is the single digit 0 instead.  So it is always a
    non-empty string of decimal digits, and a text that is itself a
    non-empty string of decimal digits is handed over unchanged. *)
Theorem X12_badge_text_is_read_as_digits :
  ∀ (count : option string),
    let is_decimal (c : ascii) :=
      existsb (Ascii.eqb c)
        ["0"; "1"; "2"; "3"; "4"; "5"; "6"; "7"; "8"; "9"]%char in
    let kept :=
      match count with
      | Some text => List.filter is_decimal (list_ascii_of_string text)
      | None => []
      end in
    let out := HomePage.digits_or_zero count in
    (kept = [] → out = "0")
    ∧ (kept ≠ [] → list_ascii_of_string out = kept)
    ∧ out ≠ ""
    ∧ forallb is_decimal (list_ascii_of_string out) = true
    ∧ (∀ text,
         count = Some text → text ≠ "" →
         forallb is_decimal (list_ascii_of_string text) = true →
         out = text).
Proof.
  intros count is_decimal kept out.
  assert (Hkept : ∀ text,
            list_ascii_of_string (HomePage.digits_of text)
            = List.filter is_decimal (list_ascii_of_string text)).
  { intros text. rewrite digits_of_filter. apply filter_ext.
    intros c. apply is_digit_decimal. }
  assert (H0 : kept = [] → out = "0").
  { subst kept out. unfold HomePage.digits_or_zero.
    destruct count as [text|]; [|reflexivity].
    rewrite <- Hkept. intros H. apply list_ascii_nil in H. rewrite H.
    reflexivity. }
  assert (H1 : kept ≠ [] → list_ascii_of_string out = kept).
  { subst kept out. unfold HomePage.digits_or_zero.
    destruct count as [text|]; [|intros H; contradiction H; reflexivity].
    rewrite <- Hkept. intros H.
    destruct (String.eqb (HomePage.digits_of text) "") eqn:He; [|reflexivity].
    apply String.eqb_eq in He. rewrite He in H. contradiction H. reflexivity. }
  assert (Hall : forallb is_decimal (list_ascii_of_string out) = true).
  { destruct kept as [|c k] eqn:Hk.
    - rewrite (H0 eq_refl). reflexivity.
    - rewrite H1 by discriminate. rewrite <- Hk. subst kept.
      destruct count as [text|]; [apply filter_forallb | reflexivity]. }
  split; [exact H0|]. split; [exact H1|]. split; [|split; [exact Hall|]].
  - destruct kept as [|c k] eqn:Hk.
    + rewrite (H0 eq_refl). discriminate.
    + intros Hout. assert (Hc : list_ascii_of_string out = c :: k)
        by (apply H1; discriminate).
      rewrite Hout in Hc. discriminate Hc.
  - intros text -> Hne Htext.
    assert (Hk : kept = list_ascii_of_string text)
      by (subst kept; apply filter_all, Htext).
    assert (Hnn : kept ≠ []).
    { rewrite Hk. intros H. apply list_ascii_nil in H. contradiction. }
    specialize (H1 Hnn). rewrite Hk in H1.
    rewrite <- (string_of_list_ascii_of_string out), H1.
    apply string_of_list_ascii_of_string.
Qed.

Lemma X12_witness :
  HomePage.digits_or_zero (Some "Cart (12 items)") = "12"
  ∧ HomePage.digits_or_zero (Some "empty") = "0"
  ∧ HomePage.digits_or_zero (Some "007") = "007".
Proof.
  split; [|split].
  - destruct (X12_badge_text_is_read_as_digits (Some "Cart (12 items)"))
      as (_ & H & _).
    rewrite <- (string_of_list_ascii_of_string
                  (HomePage.digits_or_zero (Some "Cart (12 items)"))).
    rewrite H; [reflexivity | discriminate].
  - destruct (X12_badge_text_is_read_as_digits (Some "empty")) as (H & _).
    apply H. reflexivity.
  - destruct (X12_badge_text_is_read_as_digits (Some "007"))
      as (_ & _ & _ & _ & H).
    apply H; [reflexivity | discriminate | reflexivity].
Defined.

(** X13: HomePage.getCartItemCount never raises.  When the badge is not
    reported visible it returns 0 after that single question, without
    reading any text; when the badge is visible and its text is read, it
    returns parseInt of the digits of the text; when reading the text
    fails it returns 0. *)
Theorem X13_getCartItemCount_tolerant :
  ∀ (W : Type) (rt : runtime W) (parseInt : string → Z) (this : page_object)
    (s : st W),
    let probe :=
      IsVisible HomePage.cartBadge (timeout_opt config.TIMEOUTS.SHORT) in
    let read := TextContent HomePage.cartBadge in
    let run := HomePage.getCartItemCount rt parseInt this s in
    (∃ n, fst run = Ok n)
    ∧ (answered_yes (fst (rt_exec rt (page this) probe (world s))) = false →
       fst run = Ok 0
       ∧ calls (trace (snd run))
         = (calls (trace s) ++ [ECall (page this) probe])%list)
    ∧ (∀ w1 text w2,
         rt_exec rt (page this) probe (world s) = (Ok true, w1) →
         rt_exec rt (page this) read w1 = (Ok text, w2) →
         fst run = Ok (parseInt (HomePage.digits_or_zero text)))
    ∧ (∀ w1 e w2,
         rt_exec rt (page this) probe (world s) = (Ok true, w1) →
         rt_exec rt (page this) read w1 = (Throw e, w2) →
         fst run = Ok 0).
Proof.
  intros W rt parseInt this s probe read run. subst run probe read.
  unfold HomePage.getCartItemCount. unfold_monad. cbn [world trace].
  repeat split.
  - destruct (rt_exec rt (page this) (IsVisible _ _) (world s))
      as [[[]|e1] w1]; cbn; try (eexists; reflexivity).
    destruct (rt_exec rt (page this) (TextContent _) w1) as [[t|e2] w2];
      cbn; eexists; reflexivity.
  - destruct (rt_exec rt (page this) (IsVisible _ _) (world s))
      as [[[]|e1] w1]; cbn in *; try discriminate; reflexivity.
  - destruct (rt_exec rt (page this) (IsVisible _ _) (world s))
      as [[[]|e1] w1]; cbn in *; try discriminate;
      rewrite !calls_app; cbn; rewrite ?app_nil_r; reflexivity.
  - intros w1 text w2 Hp Hr. rewrite Hp. cbn. rewrite Hr. reflexivity.
  - intros w1 e w2 Hp Hr. rewrite Hp. cbn. rewrite Hr. reflexivity.
Qed.

Lemma X13_witness :
  fst (HomePage.getCartItemCount Sim.rt Sim.parseInt Sim.this
         (Sim.start Sim.catalogue)) = Ok 12
  ∧ fst (HomePage.getCartItemCount Sim.rt Sim.parseInt Sim.this
           (Sim.start Sim.blank)) = Ok 0.
Proof.
  split.
  - destruct (X13_getCartItemCount_tolerant _ Sim.rt Sim.parseInt Sim.this
                (Sim.start Sim.catalogue)) as (_ & _ & H & _).
    rewrite (H Sim.catalogue (Some "Cart (12 items)") Sim.catalogue eq_refl
               eq_refl).
    reflexivity.
  - destruct (X13_getCartItemCount_tolerant _ Sim.rt Sim.parseInt Sim.this
                (Sim.start Sim.blank)) as (_ & H & _).
    destruct (H eq_refl) as [H0 _]. exact H0.
Defined.

(** ** Across the page objects *)

(** X14: a caller's text that is not a well-formed pattern never reaches
    the page.  fillInput, getTextByText, clickByText, clickByRole with a
    string name, waitForVisibility by text, clickProduct, addProductToCart
    and applyFilter throw the engine's error for that text without making
    any call on the page; isVisible by text returns false, again without
    any call. *)
Theorem X14_malformed_pattern_never_reaches_the_page :
  ∀ (W : Type) (rt : runtime W) (this : page_object) (text : string)
    (e : error) (s : st W),
    rt_regexp_error rt text = Some e →
    (∀ value options,
       let run := BasePage.fillInput rt this text value options s in
       fst run = Throw e ∧ untouched s run)
    ∧ (let run := BasePage.getTextByText rt this text s in
       fst run = Throw e ∧ untouched s run)
    ∧ (∀ options,
         let run := BasePage.clickByText rt this text options s in
         fst run = Throw e ∧ untouched s run)
    ∧ (∀ role options,
         let run := BasePage.clickByRole rt this role (JStr text) options s in
         fst run = Throw e ∧ untouched s run)
    ∧ (∀ timeout,
         let run := BasePage.waitForVisibility rt this "text" text timeout s in
         fst run = Throw e ∧ untouched s run)
    ∧ (let run := HomePage.clickProduct rt this text s in
       fst run = Throw e ∧ untouched s run)
    ∧ (let run := HomePage.addProductToCart rt this text s in
       fst run = Throw e ∧ untouched s run)
    ∧ (∀ name,
         let run := HomePage.applyFilter rt this name text s in
         fst run = Throw e ∧ untouched s run)
    ∧ (let run := BasePage.isVisible rt this "text" text s in
       fst run = Ok false ∧ untouched s run).
Proof.
  intros W rt this text e s H. unfold untouched.
  repeat split;
    unfold BasePage.fillInput, BasePage.getTextByText, BasePage.clickByText,
      BasePage.clickByRole, BasePage.waitForVisibility,
      HomePage.addProductToCart, HomePage.clickProduct, HomePage.applyFilter,
      BasePage.isVisible;
    unfold_monad; cbn [String.eqb Ascii.eqb Bool.eqb]; rewrite ?H; cbn;
    rewrite ?calls_app; cbn; rewrite ?app_nil_r; reflexivity.
Qed.

Lemma X14_witness :
  fst (HomePage.clickProduct Sim.rt Sim.this "(" (Sim.start Sim.shop_page))
  = Throw Sim.SyntaxError
  ∧ calls (trace (snd (HomePage.clickProduct Sim.rt Sim.this "("
                         (Sim.start Sim.shop_page)))) = []
  ∧ fst (BasePage.isVisible Sim.rt Sim.this "text" "(" (Sim.start Sim.shop_page))
    = Ok false.
Proof.
  destruct (X14_malformed_pattern_never_reaches_the_page _ Sim.rt Sim.this "("
              Sim.SyntaxError (Sim.start Sim.shop_page) eq_refl)
    as (_ & _ & _ & _ & _ & (Hc & _ & Hcalls) & _ & _ & (Hv & _)).
  split; [exact Hc|]. split; [exact Hcalls | exact Hv].
Defined.

(** X15: the click actions with a settle delay, clickLoginButton,
    openCart, clickProductByIndex and clickProduct (on a well-formed
    product name), make exactly one click; their outcome is the outcome of
    that click, with its error unchanged; and the settle delay elapses
    only after a click that succeeded, never after one that failed. *)
Theorem X15_settle_delay_only_after_a_successful_click :
  ∀ (W : Type) (rt : runtime W) (this : page_object) (s : st W),
    let opts := timeout_opt config.TIMEOUTS.ELEMENT in
    click_then_settle rt (page this) (Click LoginPage.getLoginButton opts) s
      (LoginPage.clickLoginButton rt this s)
    ∧ click_then_settle rt (page this) (Click HomePage.getCartButton opts) s
        (HomePage.openCart rt this s)
    ∧ (∀ index,
         click_then_settle rt (page this)
           (Click (Nth HomePage.getAllProducts index) opts) s
           (HomePage.clickProductByIndex rt this index s))
    ∧ (∀ name,
         rt_regexp_error rt name = None →
         click_then_settle rt (page this)
           (Click (First (GetByText (mkRegExp name "i"))) opts) s
           (HomePage.clickProduct rt this name s)).
Proof.
  intros W rt this s opts. subst opts. unfold click_then_settle.
  repeat split; try intros index; try intros Hre;
    unfold LoginPage.clickLoginButton, HomePage.openCart,
      HomePage.clickProductByIndex, HomePage.clickProduct;
    unfold_monad; rewrite ?Hre; cbn [world trace];
    destruct (rt_exec rt (page this) (Click _ _) (world s))
      as [[[]|e] w1]; cbn;
    rewrite ?calls_app; cbn; rewrite ?app_nil_r, <- ?app_assoc;
    repeat split.
Qed.

Lemma X15_witness :
  calls (trace (snd (HomePage.clickProduct Sim.rt Sim.this "shirt"
                       (Sim.start Sim.blank))))
  = [ECall Sim.handle
       (Click (First (GetByText (mkRegExp "shirt" "i")))
          (timeout_opt config.TIMEOUTS.ELEMENT))]
  ∧ calls (trace (snd (HomePage.clickProduct Sim.rt Sim.this "shirt"
                         (Sim.start Sim.shop_page))))
    = [ECall Sim.handle
         (Click (First (GetByText (mkRegExp "shirt" "i")))
            (timeout_opt config.TIMEOUTS.ELEMENT));
       EDelay config.DELAYS.MEDIUM_DELAY].
Proof.
  split.
  - destruct (X15_settle_delay_only_after_a_successful_click _ Sim.rt Sim.this
                (Sim.start Sim.blank)) as (_ & _ & _ & H).
    specialize (H "shirt" eq_refl). unfold click_then_settle in H.
    cbn in H. destruct H as (_ & _ & H). exact H.
  - destruct (X15_settle_delay_only_after_a_successful_click _ Sim.rt Sim.this
                (Sim.start Sim.shop_page)) as (_ & _ & _ & H).
    specialize (H "shirt" eq_refl). unfold click_then_settle in H.
    cbn in H. destruct H as (_ & _ & H). exact H.
Defined.

(** X16: for a known locator kind (and, for the kind text, a well-formed
    value) BasePage.isVisible and BasePage.waitForVisibility look for the
    same element.  isVisible asks once, with the short timeout, and
    returns the answer, a failed question counting as false;
    waitForVisibility waits once for the visible state, with the given
    timeout or the ELEMENT default when none is given, and its outcome is
    the outcome of that wait. *)
Theorem X16_visibility_methods_resolve_alike :
  ∀ (W : Type) (rt : runtime W) (this : page_object) (kind value : string)
    (l : locator) (timeout : option Z) (s : st W),
    target_of kind value = Some l →
    (kind = "text" → rt_regexp_error rt value = None) →
    let ask := IsVisible l (timeout_opt config.TIMEOUTS.SHORT) in
    let wait :=
      WaitFor l
        (<["timeout" := JNum (default config.TIMEOUTS.ELEMENT timeout)]>
           {[ "state" := JStr "visible" ]}) in
    let seen := BasePage.isVisible rt this kind value s in
    let waited := BasePage.waitForVisibility rt this kind value timeout s in
    fst seen = Ok (answered_yes (fst (rt_exec rt (page this) ask (world s))))
    ∧ calls (trace (snd seen))
      = (calls (trace s) ++ [ECall (page this) ask])%list
    ∧ fst waited = fst (rt_exec rt (page this) wait (world s))
    ∧ world (snd waited) = snd (rt_exec rt (page this) wait (world s))
    ∧ calls (trace (snd waited))
      = (calls (trace s) ++ [ECall (page this) wait])%list.
Proof.
  intros W rt this kind value l timeout s Ht Hre ask wait seen waited.
  subst ask wait seen waited.
  unfold target_of in Ht.
  unfold BasePage.isVisible, BasePage.waitForVisibility. unfold_monad.
  destruct (String.eqb kind "role") eqn:Hrole.
  - inversion Ht; subst l. cbn [world trace].
    destruct (rt_exec rt (page this) (IsVisible _ _) (world s))
      as [[[]|e1] w1];
      destruct (rt_exec rt (page this) (WaitFor _ _) (world s))
        as [[[]|e2] w2]; cbn;
      rewrite ?calls_app; cbn; rewrite ?app_nil_r; repeat split.
  - destruct (String.eqb kind "text") eqn:Htext.
    + inversion Ht; subst l. apply String.eqb_eq in Htext.
      rewrite (Hre Htext). cbn [world trace].
      destruct (rt_exec rt (page this) (IsVisible _ _) (world s))
        as [[[]|e1] w1];
        destruct (rt_exec rt (page this) (WaitFor _ _) (world s))
          as [[[]|e2] w2]; cbn;
        rewrite ?calls_app; cbn; rewrite ?app_nil_r; repeat split.
    + destruct (String.eqb kind "testId") eqn:Hid; [|discriminate Ht].
      inversion Ht; subst l. cbn [world trace].
      destruct (rt_exec rt (page this) (IsVisible _ _) (world s))
        as [[[]|e1] w1];
        destruct (rt_exec rt (page this) (WaitFor _ _) (world s))
          as [[[]|e2] w2]; cbn;
        rewrite ?calls_app; cbn; rewrite ?app_nil_r; repeat split.
Qed.

Lemma X16_witness :
  fst (BasePage.isVisible Sim.rt Sim.this "text" "shirt"
         (Sim.start Sim.shop_page)) = Ok false
  ∧ fst (BasePage.waitForVisibility Sim.rt Sim.this "text" "shirt" None
           (Sim.start Sim.shop_page)) = Throw Sim.TimeoutError.
Proof.
  destruct (X16_visibility_methods_resolve_alike _ Sim.rt Sim.this "text"
              "shirt" (GetByText (mkRegExp "shirt" "i")) None
              (Sim.start Sim.shop_page) eq_refl (fun _ => eq_refl))
    as (Hs & _ & Hw & _).
  split; [rewrite Hs | rewrite Hw]; reflexivity.
Defined.

(** ** Configuration and navigation *)

(** X17: a configured setting read as [process.env.K || default] takes
    the variable when it is set to a non-empty string and the default when
    it is unset or set to the empty string; hence the base URL, the test
    email and the test password are never empty, whatever the
    environment. *)
Theorem X17_config_falls_back_on_empty :
  ∀ (W : Type) (rt : runtime W),
    (∀ k d v, rt_env rt !! k = Some v → v ≠ "" → config.env_or rt k d = v)
    ∧ (∀ k d, rt_env rt !! k = Some "" → config.env_or rt k d = d)
    ∧ (∀ k d, rt_env rt !! k = None → config.env_or rt k d = d)
    ∧ config.BASE_URL rt ≠ ""
    ∧ config.CREDENTIALS.email rt ≠ ""
    ∧ config.CREDENTIALS.password rt ≠ "".
Proof.
  intros W rt.
  assert (Hne : ∀ k d, d ≠ "" → config.env_or rt k d ≠ "").
  { intros k d Hd. unfold config.env_or.
    destruct (rt_env rt !! k) as [v|]; [|exact Hd].
    destruct (String.eqb v "") eqn:Hv; [exact Hd|].
    intros ->. discriminate Hv. }
  repeat split.
  - intros k d v Hk Hv. unfold config.env_or. rewrite Hk.
    destruct (String.eqb v "") eqn:He; [|reflexivity].
    apply String.eqb_eq in He. contradiction.
  - intros k d Hk. unfold config.env_or. rewrite Hk. reflexivity.
  - intros k d Hk. unfold config.env_or. rewrite Hk. reflexivity.
  - apply Hne. discriminate.
  - apply Hne. discriminate.
  - apply Hne. discriminate.
Qed.

Lemma X17_witness :
  config.BASE_URL Sim.closed_rt = "https://staging.shop.test/"
  ∧ config.BASE_URL Sim.rt = "https://sauce-demo.myshopify.com/".
Proof.
  destruct (X17_config_falls_back_on_empty _ Sim.closed_rt) as (Hset & _).
  destruct (X17_config_falls_back_on_empty _ Sim.rt) as (_ & _ & Hunset & _).
  split.
  - apply Hset; [reflexivity | discriminate].
  - apply Hunset. reflexivity.
Defined.

(** X18: HomePage.navigateToHome and LoginPage.navigateToLogin are the
    same navigation: from the same state both make the one call
    [goto(BASE_URL)] with the network-idle wait and the NAVIGATION
    timeout, return the same outcome and leave the page in the same
    state; they differ in their log lines only. *)
Theorem X18_home_and_login_navigate_alike :
  ∀ (W : Type) (rt : runtime W) (this : page_object) (s : st W),
    let nav :=
      PageGoto (config.BASE_URL rt)
        (<["timeout" := JNum config.TIMEOUTS.NAVIGATION]>
           {[ "waitUntil" := JStr "networkidle" ]}) in
    let home := HomePage.navigateToHome rt this s in
    let login := LoginPage.navigateToLogin rt this s in
    fst home = fst login
    ∧ world (snd home) = world (snd login)
    ∧ world (snd home) = snd (rt_exec rt (page this) nav (world s))
    ∧ calls (trace (snd home)) = (calls (trace s) ++ [ECall (page this) nav])%list
    ∧ calls (trace (snd login))
      = (calls (trace s) ++ [ECall (page this) nav])%list.
Proof.
  intros W rt this s nav home login. subst nav home login.
  unfold HomePage.navigateToHome, LoginPage.navigateToLogin, BasePage.goto.
  unfold_monad. cbn [world trace].
  change (Js.or (Js.get ∅ "timeout") (JNum config.TIMEOUTS.NAVIGATION))
    with (JNum config.TIMEOUTS.NAVIGATION).
  destruct (rt_exec rt (page this) (PageGoto _ _) (world s))
    as [[resp|e] w1]; cbn;
    rewrite ?calls_app; cbn; rewrite ?app_nil_r; repeat split.
Qed.

(** ** The probes only look *)

(** X19: the probes of the page objects never act on the page: every
    entry that isVisible, getProductCount, getCartItemCount,
    getErrorMessage, isErrorDisplayed, isLoginFormDisplayed,
    verifyLoginSuccess, isProductGridDisplayed, isNoResultsDisplayed and
    isFeaturedSectionDisplayed add to the trace is a log line or a
    read-only question (visibility, count, text content); none clicks,
    fills, navigates or waits. *)
Theorem X19_probes_only_query :
  ∀ (W : Type) (rt : runtime W) (this : page_object) (s : st W),
    (∀ kind value, only_queries s (BasePage.isVisible rt this kind value s))
    ∧ only_queries s (HomePage.getProductCount rt this s)
    ∧ (∀ parseInt, only_queries s (HomePage.getCartItemCount rt parseInt this s))
    ∧ only_queries s (LoginPage.getErrorMessage rt this s)
    ∧ only_queries s (LoginPage.isErrorDisplayed rt this s)
    ∧ only_queries s (LoginPage.isLoginFormDisplayed rt this s)
    ∧ only_queries s (LoginPage.verifyLoginSuccess rt this s)
    ∧ only_queries s (HomePage.isProductGridDisplayed rt this s)
    ∧ only_queries s (HomePage.isNoResultsDisplayed rt this s)
    ∧ only_queries s (HomePage.isFeaturedSectionDisplayed rt this s).
Proof.
  intros W rt this s. unfold only_queries.
  repeat split; try intros kind value; try intros parseInt;
    unfold BasePage.isVisible, HomePage.getProductCount,
      HomePage.getCartItemCount, LoginPage.isErrorDisplayed,
      LoginPage.getErrorMessage, LoginPage.isLoginFormDisplayed,
      LoginPage.verifyLoginSuccess, HomePage.isProductGridDisplayed,
      HomePage.isNoResultsDisplayed, HomePage.isFeaturedSectionDisplayed;
    unfold_monad;
    repeat match goal with
      | |- context [if String.eqb ?a ?b then _ else _] =>
          destruct (String.eqb a b)
      | |- context [match rt_regexp_error ?r ?v with _ => _ end] =>
          destruct (rt_regexp_error r v)
      end;
    cbn [world trace];
    repeat match goal with
      | |- context [rt_exec rt (page this) ?o ?w] =>
          lazymatch w with
          | context [rt_exec] => fail
          | _ => destruct (rt_exec rt (page this) o w) as [[[]|?] ?];
                 cbn [world trace fst snd]
          end
      end;
    cbn; rewrite <- ?app_assoc; eexists; (split; [reflexivity|]);
    try reflexivity.
Qed.

(** X20: LoginPage.clearEmail and LoginPage.clearPassword clear the very
    fields that enterEmail and enterPassword fill: each makes one clear
    call on that field, passing no timeout of its own, and its outcome
    is the outcome of that call, the error unchanged. *)
Theorem X20_clear_acts_on_the_filled_field :
  ∀ (W : Type) (rt : runtime W) (this : page_object) (email password : string)
    (s : st W),
    let opts := timeout_opt config.TIMEOUTS.ELEMENT in
    let cleared_email := LoginPage.clearEmail rt this s in
    let cleared_password := LoginPage.clearPassword rt this s in
    (calls (trace (snd (LoginPage.enterEmail rt this email s)))
     = (calls (trace s)
          ++ [ECall (page this) (Fill LoginPage.getEmailField email opts)])%list
     ∧ calls (trace (snd cleared_email))
       = (calls (trace s)
            ++ [ECall (page this) (Clear LoginPage.getEmailField)])%list
     ∧ fst cleared_email
       = fst (rt_exec rt (page this) (Clear LoginPage.getEmailField) (world s))
     ∧ world (snd cleared_email)
       = snd (rt_exec rt (page this) (Clear LoginPage.getEmailField) (world s)))
    ∧ (calls (trace (snd (LoginPage.enterPassword rt this password s)))
       = (calls (trace s)
            ++ [ECall (page this)
                  (Fill LoginPage.getPasswordField password opts)])%list
       ∧ calls (trace (snd cleared_password))
         = (calls (trace s)
              ++ [ECall (page this) (Clear LoginPage.getPasswordField)])%list
       ∧ fst cleared_password
         = fst (rt_exec rt (page this) (Clear LoginPage.getPasswordField)
                  (world s))
       ∧ world (snd cleared_password)
         = snd (rt_exec rt (page this) (Clear LoginPage.getPasswordField)
                  (world s))).
Proof.
  intros W rt this email password s opts cleared_email cleared_password.
  subst opts cleared_email cleared_password.
  split; (split; [first [apply enterEmail_calls | apply enterPassword_calls]|]);
    unfold LoginPage.clearEmail, LoginPage.clearPassword; unfold_monad;
    cbn [world trace];
    destruct (rt_exec rt (page this) (Clear _) (world s)) as [[[]|e] w1]; cbn;
    rewrite ?calls_app; cbn; rewrite ?app_nil_r; repeat split.
Qed.
